(** * OpenCores PWM (PTC) driver: drivers/pwm/pwm-ocores.c

    A shallow embedding of the register-level logic of the driver: the
    channel address resolver, the read path [ocores_pwm_get_state], the
    write path [ocores_pwm_apply] and the clock-rate gate of
    [ocores_pwm_probe].

    Conventions.
    - C integers are [Z] with the wrap-around of their width written out
      ([u32], [u64]).
    - An [__iomem] address is a [Z]; the register window is a total map from
      addresses to 32-bit contents, together with the trace of accesses made
      so far.
    - A driver function is a computation in the monad [M]: it threads the
      register window and may fault (a NULL pointer dereference). *)

From Stdlib Require Import ZArith List Bool String Lia.
Import ListNotations.

#[local] Open Scope Z_scope.

(** ** Fixed-width unsigned integers *)

Definition u32 (x : Z) : Z := x mod 2 ^ 32.
Definition u64 (x : Z) : Z := x mod 2 ^ 64.

(** [~x] on an [unsigned long] (64 bits on the targets of this driver). *)
Definition ulong_not (x : Z) : Z := u64 (Z.lnot x).

(** ** Kernel definitions the driver uses *)

(** Modelled from the spec: the macro [BIT] of include/linux/bits.h is not
    part of the driver file; the control bits are single bits, bit [n] being
    [1UL << n] (the spec's example has enable at bit 0, output-enable at
    bit 3 and interrupt-enable at bit 5). *)
Definition BIT (n : Z) : Z := Z.shiftl 1 n.

(** Modelled from the spec: the constant [NSEC_PER_SEC] of
    include/vdso/time64.h is not part of the driver file; the spec converts
    with 1_000_000_000 nanoseconds per second. *)
Definition NSEC_PER_SEC : Z := 1000000000.

(** Modelled from the spec: the macro [DIV_ROUND_CLOSEST_ULL] of
    include/linux/math.h is not part of the driver file; the spec calls it
    round-to-nearest in 64-bit arithmetic.  It adds half the divisor to the
    dividend in [unsigned long long] and divides by the divisor. *)
Definition DIV_ROUND_CLOSEST_ULL (x divisor : Z) : Z :=
  u64 (x + divisor / 2) / divisor.

(** Modelled from the spec: the error numbers of
    include/uapi/asm-generic/errno-base.h are not part of the driver file;
    the spec's UnsupportedPolarity and InvalidClockRate are both [-EINVAL]
    in the driver. *)
Definition EINVAL : Z := 22.
Definition ENOMEM : Z := 12.

(** Modelled from the spec: [enum pwm_polarity] and [struct pwm_state] of
    include/linux/pwm.h are not part of the driver file; the spec's logical
    state has an unsigned period and duty cycle in nanoseconds (64 bits
    wide), a polarity and an enabled flag. *)
Inductive pwm_polarity : Type :=
| PWM_POLARITY_NORMAL
| PWM_POLARITY_INVERSED.

Definition pwm_polarity_eqb (a b : pwm_polarity) : bool :=
  match a, b with
  | PWM_POLARITY_NORMAL, PWM_POLARITY_NORMAL => true
  | PWM_POLARITY_INVERSED, PWM_POLARITY_INVERSED => true
  | _, _ => false
  end.

Record pwm_state : Type := mk_pwm_state {
  period : Z;
  duty_cycle : Z;
  polarity : pwm_polarity;
  enabled : bool
}.

(** The state a caller can pass: both durations are [u64] values. *)
Definition pwm_state_wf (s : pwm_state) : Prop :=
  0 <= period s < 2 ^ 64 /\ 0 <= duty_cycle s < 2 ^ 64.

(** ** Register layout *)

Definition REG_OCPWM_CNTR (base : Z) : Z := base.
Definition REG_OCPWM_HRC (base : Z) : Z := base + 0x4.
Definition REG_OCPWM_LRC (base : Z) : Z := base + 0x8.
Definition REG_OCPWM_CTRL (base : Z) : Z := base + 0xC.

(** OCPWM_CTRL register bits *)
Definition OCPWM_EN : Z := BIT 0.
Definition OCPWM_ECLK : Z := BIT 1.
Definition OCPWM_NEC : Z := BIT 2.
Definition OCPWM_OE : Z := BIT 3.
Definition OCPWM_SIGNLE : Z := BIT 4.
Definition OCPWM_INTE : Z := BIT 5.
Definition OCPWM_INT : Z := BIT 6.
Definition OCPWM_CNTRRST : Z := BIT 7.
Definition OCPWM_CAPTE : Z := BIT 8.

(** ** The memory-mapped register window *)

Inductive io_event : Type :=
| IoRead (addr val : Z)
| IoWrite (addr val : Z).

Record mmio : Type := mk_mmio {
  mem : Z -> Z;
  trace : list io_event
}.

(** Contents of the 32-bit register at [addr]. *)
Definition reg (io : mmio) (addr : Z) : Z := u32 (mem io addr).

Definition is_write (e : io_event) : bool :=
  match e with
  | IoWrite _ _ => true
  | IoRead _ _ => false
  end.

(** The writes of a trace, in order. *)
Definition writes (t : list io_event) : list io_event := filter is_write t.

(** A computation over the register window; [None] is a fault (the kernel
    dereferences a NULL pointer). *)
Definition M (A : Type) : Type := mmio -> option (A * mmio).

Definition ret {A : Type} (a : A) : M A := fun io => Some (a, io).

Definition bind {A B : Type} (m : M A) (k : A -> M B) : M B :=
  fun io =>
    match m io with
    | Some (a, io') => k a io'
    | None => None
    end.

Definition fault {A : Type} : M A := fun _ => None.

Definition lift_ptr {A : Type} (p : option A) : M A :=
  match p with
  | Some a => ret a
  | None => fault
  end.

Declare Scope io_scope.
Delimit Scope io_scope with io.
Notation "x <- m ;; k" := (bind m (fun x => k))
  (at level 61, m at next level, right associativity) : io_scope.
Notation "m ;;; k" := (bind m (fun _ => k))
  (at level 61, right associativity) : io_scope.
#[local] Open Scope io_scope.

Definition readl (addr : Z) : M Z :=
  fun io =>
    let v := reg io addr in
    Some (v, mk_mmio (mem io) (trace io ++ [IoRead addr v])).

Definition writel (val addr : Z) : M unit :=
  fun io =>
    let v := u32 val in
    Some (tt, mk_mmio (fun a => if a =? addr then v else mem io a)
                      (trace io ++ [IoWrite addr v])).

(** ** The driver's data *)

(** [struct ocores_pwm_data]: the optional per-variant resolver; [None] is
    a NULL function pointer. *)
Record ocores_pwm_data : Type := mk_ocores_pwm_data {
  get_ch_base : option (Z -> Z -> Z)
}.

(** The fields of [struct pwm_chip] that the driver sets. *)
Record pwm_chip : Type := mk_pwm_chip {
  npwm : Z;
  of_pwm_n_cells : Z
}.

(** [struct ocores_pwm_device]; [data = None] is a NULL [data] pointer. *)
Record ocores_pwm_device : Type := mk_ocores_pwm_device {
  chip : pwm_chip;
  data : option ocores_pwm_data;
  regs : Z;
  clk_rate : Z
}.

(** ** Channel address resolver *)

(** [channel] is an [unsigned int]; the offset is computed in
    [unsigned int] and added to the base pointer. *)
Definition starfive_jh71x0_get_ch_base (base channel : Z) : Z :=
  base + (if 3 <? channel
          then u32 (u32 (channel mod 4 * 0x10) + Z.shiftl 1 15)
          else u32 (channel * 0x10)).

(** The expression both operations start with:
    [pwm->data->get_ch_base ? pwm->data->get_ch_base(pwm->regs, dev->hwpwm)
                            : pwm->regs]. *)
Definition ch_base (pwm : ocores_pwm_device) (hwpwm : Z) : option Z :=
  match data pwm with
  | None => None
  | Some d =>
      match get_ch_base d with
      | Some f => Some (f (regs pwm) hwpwm)
      | None => Some (regs pwm)
      end
  end.

(** ** Read path *)

(** [ocores_pwm_get_state]: returns the status code and the four fields it
    stores through [state]. *)
Definition ocores_pwm_get_state (pwm : ocores_pwm_device) (hwpwm : Z)
  : M (Z * pwm_state) :=
  base <- lift_ptr (ch_base pwm hwpwm) ;;
  period_data <- readl (REG_OCPWM_LRC base) ;;
  duty_data <- readl (REG_OCPWM_HRC base) ;;
  ctrl_data <- readl (REG_OCPWM_CTRL base) ;;
  ret (0,
       mk_pwm_state
         (DIV_ROUND_CLOSEST_ULL (u64 (period_data * NSEC_PER_SEC)) (clk_rate pwm))
         (DIV_ROUND_CLOSEST_ULL (u64 (duty_data * NSEC_PER_SEC)) (clk_rate pwm))
         PWM_POLARITY_INVERSED
         (if Z.land ctrl_data OCPWM_EN =? 0 then false else true)).

(** ** Write path *)

(** The tick count [apply] computes for a duration in nanoseconds: the
    product is taken in [u64], rounded by [DIV_ROUND_CLOSEST_ULL], and the
    result is stored in a [u32] variable. *)
Definition apply_ticks (ns rate : Z) : Z :=
  u32 (DIV_ROUND_CLOSEST_ULL (u64 (ns * rate)) NSEC_PER_SEC).

Definition ocores_pwm_apply (pwm : ocores_pwm_device) (hwpwm : Z)
  (state : pwm_state) : M Z :=
  base <- lift_ptr (ch_base pwm hwpwm) ;;
  if negb (pwm_polarity_eqb (polarity state) PWM_POLARITY_INVERSED)
  then ret (- EINVAL)
  else
    let period_data := apply_ticks (period state) (clk_rate pwm) in
    let duty_data := apply_ticks (duty_cycle state) (clk_rate pwm) in
    writel period_data (REG_OCPWM_LRC base) ;;;
    writel duty_data (REG_OCPWM_HRC base) ;;;
    writel 0 (REG_OCPWM_CNTR base) ;;;
    ctrl_data <- readl (REG_OCPWM_CTRL base) ;;
    (if enabled state
     then writel (Z.lor (Z.lor ctrl_data OCPWM_EN) OCPWM_OE)
                 (REG_OCPWM_CTRL base)
     else writel (Z.land ctrl_data (ulong_not (Z.lor OCPWM_EN OCPWM_OE)))
                 (REG_OCPWM_CTRL base)) ;;;
    ret 0.

(** ** Variant table and probe *)

Definition jh71x0_pwm_data : ocores_pwm_data :=
  mk_ocores_pwm_data (Some starfive_jh71x0_get_ch_base).

Record of_device_id : Type := mk_of_device_id {
  compatible : string;
  of_data : option ocores_pwm_data
}.

Definition ocores_pwm_of_match : list of_device_id :=
  [ mk_of_device_id "opencores,pwm-ocores" None;
    mk_of_device_id "starfive,jh71x0-pwm" (Some jh71x0_pwm_data) ].

(** Modelled from the spec: [of_match_device] of drivers/of/device.c is not
    part of the driver file; variant data is keyed by the
    hardware-compatibility identifier string of the device. *)
Definition of_match_device (table : list of_device_id) (compat : string)
  : option of_device_id :=
  find (fun id => String.eqb (compatible id) compat) table.

(** What the platform answers to the calls of [ocores_pwm_probe].  An
    [inl e] is an [ERR_PTR] carrying the negative error number [e]. *)
Record platform_device : Type := mk_platform_device {
  dev_compatible : string;
  devm_kzalloc_ok : bool;
  devm_platform_ioremap_resource : Z + Z;
  (** the clock, given by the rate [clk_get_rate] reports for it
      (an [unsigned long]) *)
  devm_clk_get_enabled : Z + Z;
  devm_pwmchip_add : Z
}.

Inductive platform_action : Type :=
| ResetDeassert
| ResetAssert
| ClkDisableUnprepare
| DevWarn (msg : string)
| DevErr (msg : string).

Record probe_result : Type := mk_probe_result {
  probe_ret : Z;
  (** the chip, when [devm_pwmchip_add] was called and accepted it *)
  registered : option ocores_pwm_device;
  (** the driver data, when [platform_set_drvdata] was reached *)
  drvdata : option ocores_pwm_device;
  actions : list platform_action
}.

Definition probe_fail (e : Z) (acts : list platform_action) : M probe_result :=
  ret (mk_probe_result e None None acts).

Definition ocores_pwm_probe (pdev : platform_device) : M probe_result :=
  match of_match_device ocores_pwm_of_match (dev_compatible pdev) with
  | None => probe_fail (- EINVAL) []
  | Some id =>
      if negb (devm_kzalloc_ok pdev) then probe_fail (- ENOMEM) []
      else
        let chip := mk_pwm_chip 8 3 in
        match devm_platform_ioremap_resource pdev with
        | inl e => probe_fail e [DevErr "Unable to map IO resources"]
        | inr regs =>
            match devm_clk_get_enabled pdev with
            | inl e => probe_fail e [DevErr "Unable to get pwm's clock"]
            | inr rate =>
                let pwm := mk_ocores_pwm_device chip (of_data id) regs (u32 rate) in
                if clk_rate pwm <=? 0
                then probe_fail (- EINVAL)
                       [ResetDeassert; DevWarn "Failed to get APB clock rate"]
                else
                  let r := devm_pwmchip_add pdev in
                  if r <? 0
                  then probe_fail r
                         [ResetDeassert; DevErr "Cannot register PTC";
                          ClkDisableUnprepare; ResetAssert]
                  else ret (mk_probe_result 0 (Some pwm) (Some pwm) [ResetDeassert])
            end
        end
  end.

(** ** Specification-side notions *)

(** Round-to-nearest (halves upwards) of the exact quotient [n / d], in
    unbounded arithmetic. *)
Definition round_to_nearest (n d : Z) : Z := (2 * n + d) / (2 * d).

(** [r] is an integer nearest to the rational [n / d]. *)
Definition nearest (r n d : Z) : Prop := 2 * Z.abs (r * d - n) <= d.

(** [ceil (n / d)]. *)
Definition ceil_div (n d : Z) : Z := (n + d - 1) / d.

(** One rounding unit of the round trip: [ceil (1e9 / clk_rate)]. *)
Definition rounding_unit (rate : Z) : Z := ceil_div NSEC_PER_SEC rate.

(** The two bits [apply] touches: OCPWM_EN is bit 0, OCPWM_OE is bit 3. *)
Definition en_oe_bit (n : Z) : bool := (n =? 0) || (n =? 3).

(** ** Sample controllers and register windows *)

(** A controller of the StarFive variant, as [ocores_pwm_probe] builds it. *)
Definition jh71x0_device (regs rate : Z) : ocores_pwm_device :=
  mk_ocores_pwm_device (mk_pwm_chip 8 3) (Some jh71x0_pwm_data) regs rate.



(** All registers zero, nothing accessed yet. *)
Definition idle_window : mmio := mk_mmio (fun _ => 0) [].

(** As [idle_window], with [c] in the CTRL register of the block at [base]. *)
Definition window_with_ctrl (base c : Z) : mmio :=
  mk_mmio (fun a => if a =? REG_OCPWM_CTRL base then c else 0) [].

(** ** Teardown and platform conventions *)

(** [ocores_pwm_remove]: asserts the reset line, then disables the clock;
    it returns 0 and touches no channel register. *)
Definition ocores_pwm_remove (pwm : ocores_pwm_device)
  : M (Z * list platform_action) :=
  ret (0, [ResetAssert; ClkDisableUnprepare]).

(** Modelled from the spec: [IS_ERR] of include/linux/err.h is not part of
    the driver file; an error pointer carries a negative error number, at
    most [MAX_ERRNO] = 4095 in magnitude. *)
Definition IS_ERR_VALUE (e : Z) : Prop := - 4095 <= e < 0.

(** The answers of a platform that follows that convention. *)
Definition platform_device_wf (pdev : platform_device) : Prop :=
  (forall e, devm_platform_ioremap_resource pdev = inl e -> IS_ERR_VALUE e) /\
  (forall e, devm_clk_get_enabled pdev = inl e -> IS_ERR_VALUE e).

(** The control word [apply] writes back, from the one it read. *)
Definition ctrl_update (en : bool) (c : Z) : Z :=
  u32 (if en
       then Z.lor (Z.lor c OCPWM_EN) OCPWM_OE
       else Z.land c (ulong_not (Z.lor OCPWM_EN OCPWM_OE))).

(** The four register addresses of the block at [base]. *)
Definition block_regs (base : Z) : list Z :=
  [REG_OCPWM_CNTR base; REG_OCPWM_HRC base; REG_OCPWM_LRC base;
   REG_OCPWM_CTRL base].

(** The address an access goes to. *)
Definition io_addr (e : io_event) : Z :=
  match e with
  | IoRead a _ => a
  | IoWrite a _ => a
  end.

(** * Properties *)

(** ** Fixed-width arithmetic *)

Lemma u32_range (x : Z) : 0 <= u32 x < 2 ^ 32.
Proof. unfold u32. apply Z.mod_pos_bound. lia. Qed.

Lemma u64_range (x : Z) : 0 <= u64 x < 2 ^ 64.
Proof. unfold u64. apply Z.mod_pos_bound. lia. Qed.

Lemma u32_small (x : Z) : 0 <= x < 2 ^ 32 -> u32 x = x.
Proof. intros H. unfold u32. now apply Z.mod_small. Qed.

Lemma u64_small (x : Z) : 0 <= x < 2 ^ 64 -> u64 x = x.
Proof. intros H. unfold u64. now apply Z.mod_small. Qed.

Lemma u32_idem (x : Z) : u32 (u32 x) = u32 x.
Proof. apply u32_small, u32_range. Qed.

Lemma reg_range (io : mmio) (a : Z) : 0 <= reg io a < 2 ^ 32.
Proof. apply u32_range. Qed.

(** ** Rounding *)

Lemma round_to_nearest_bounds (n d : Z) :
  0 < d ->
  2 * d * round_to_nearest n d <= 2 * n + d < 2 * d * round_to_nearest n d + 2 * d.
Proof.
  intros Hd. unfold round_to_nearest.
  pose proof (Z.mul_div_le (2 * n + d) (2 * d) ltac:(lia)).
  pose proof (Z.mul_succ_div_gt (2 * n + d) (2 * d) ltac:(lia)).
  lia.
Qed.

Lemma round_to_nearest_is_nearest (n d : Z) :
  0 < d -> nearest (round_to_nearest n d) n d.
Proof.
  intros Hd. unfold nearest.
  pose proof (round_to_nearest_bounds n d Hd). lia.
Qed.

Lemma round_to_nearest_nonneg (n d : Z) :
  0 <= n -> 0 < d -> 0 <= round_to_nearest n d.
Proof.
  intros Hn Hd. unfold round_to_nearest. apply Z.div_pos; lia.
Qed.

(** Adding half the divisor and truncating the quotient is rounding to
    nearest. *)
Lemma half_up_division (x d : Z) :
  0 < d -> (x + d / 2) / d = round_to_nearest x d.
Proof.
  intros Hd. unfold round_to_nearest.
  pose proof (Z.div_mod d 2 ltac:(lia)) as Hh.
  pose proof (Z.mod_pos_bound d 2 ltac:(lia)) as Hr.
  set (h := d / 2) in *. set (q := (x + h) / d).
  pose proof (Z.mul_div_le (x + h) d Hd) as Hlo.
  pose proof (Z.mul_succ_div_gt (x + h) d Hd) as Hhi.
  fold q in Hlo, Hhi.
  apply Z.div_unique with (r := 2 * x + d - 2 * d * q); lia.
Qed.

Lemma DIV_ROUND_CLOSEST_ULL_exact (x d : Z) :
  0 <= x -> 0 < d -> x + d / 2 < 2 ^ 64 ->
  DIV_ROUND_CLOSEST_ULL x d = round_to_nearest x d.
Proof.
  intros Hx Hd Hfit. unfold DIV_ROUND_CLOSEST_ULL.
  rewrite u64_small.
  - now apply half_up_division.
  - pose proof (Z.div_pos d 2 ltac:(lia) ltac:(lia)). lia.
Qed.

(** A tick count that fits the 32-bit register is computed exactly: neither
    the 64-bit product nor the 32-bit store wraps. *)
Lemma apply_ticks_fit (ns rate : Z) :
  0 <= ns -> 0 < rate ->
  round_to_nearest (ns * rate) NSEC_PER_SEC < 2 ^ 32 ->
  u64 (ns * rate) = ns * rate /\
  apply_ticks ns rate = round_to_nearest (ns * rate) NSEC_PER_SEC.
Proof.
  intros Hns Hrate Hfit.
  pose proof (round_to_nearest_bounds (ns * rate) NSEC_PER_SEC ltac:(reflexivity)) as Hb.
  assert (Hprod : 0 <= ns * rate) by nia.
  unfold NSEC_PER_SEC in *.
  assert (Hsmall : ns * rate < 2 ^ 32 * 1000000000) by lia.
  assert (Hu : u64 (ns * rate) = ns * rate) by (apply u64_small; lia).
  split; [exact Hu|].
  unfold apply_ticks. rewrite Hu.
  rewrite DIV_ROUND_CLOSEST_ULL_exact; unfold NSEC_PER_SEC; try lia.
  - apply u32_small. split; [apply round_to_nearest_nonneg; lia | exact Hfit].
  - change (1000000000 / 2) with 500000000. lia.
Qed.

(** The nanoseconds [get_state] computes from a register value. *)
Lemma get_state_ns_exact (ticks rate : Z) :
  0 <= ticks < 2 ^ 32 -> 0 < rate < 2 ^ 32 ->
  DIV_ROUND_CLOSEST_ULL (u64 (ticks * NSEC_PER_SEC)) rate
  = round_to_nearest (ticks * NSEC_PER_SEC) rate.
Proof.
  intros Ht Hr. unfold NSEC_PER_SEC.
  assert (Hp : 0 <= ticks * 1000000000 < 2 ^ 32 * 1000000000) by lia.
  rewrite u64_small by lia.
  apply DIV_ROUND_CLOSEST_ULL_exact; try lia.
  assert (rate / 2 <= rate) by (apply Z.div_le_upper_bound; lia).
  lia.
Qed.

(** ** Running the write path *)

Lemma reg_addrs_distinct (base : Z) :
  REG_OCPWM_CNTR base <> REG_OCPWM_HRC base /\
  REG_OCPWM_CNTR base <> REG_OCPWM_LRC base /\
  REG_OCPWM_CNTR base <> REG_OCPWM_CTRL base /\
  REG_OCPWM_HRC base <> REG_OCPWM_LRC base /\
  REG_OCPWM_HRC base <> REG_OCPWM_CTRL base /\
  REG_OCPWM_LRC base <> REG_OCPWM_CTRL base.
Proof.
  unfold REG_OCPWM_CNTR, REG_OCPWM_HRC, REG_OCPWM_LRC, REG_OCPWM_CTRL. lia.
Qed.

Ltac reg_eqb :=
  repeat match goal with
    | |- context [?a =? ?b] =>
        first [ rewrite (Z.eqb_refl a)
              | rewrite (proj2 (Z.eqb_neq a b)) by
                  (unfold REG_OCPWM_CNTR, REG_OCPWM_HRC, REG_OCPWM_LRC,
                     REG_OCPWM_CTRL in *; lia) ]
    end.

(** An accepted request: the five accesses [apply] makes at the channel base
    and the register window they leave behind. *)
Lemma apply_run (pwm : ocores_pwm_device) (hwpwm : Z) (st : pwm_state)
  (io : mmio) (base : Z) :
  ch_base pwm hwpwm = Some base ->
  polarity st = PWM_POLARITY_INVERSED ->
  let p := apply_ticks (period st) (clk_rate pwm) in
  let d := apply_ticks (duty_cycle st) (clk_rate pwm) in
  let c := reg io (REG_OCPWM_CTRL base) in
  let c' := u32 (if enabled st
                 then Z.lor (Z.lor c OCPWM_EN) OCPWM_OE
                 else Z.land c (ulong_not (Z.lor OCPWM_EN OCPWM_OE))) in
  exists io',
    ocores_pwm_apply pwm hwpwm st io = Some (0, io') /\
    trace io' = trace io ++
      [IoWrite (REG_OCPWM_LRC base) p; IoWrite (REG_OCPWM_HRC base) d;
       IoWrite (REG_OCPWM_CNTR base) 0; IoRead (REG_OCPWM_CTRL base) c;
       IoWrite (REG_OCPWM_CTRL base) c'] /\
    reg io' (REG_OCPWM_LRC base) = p /\
    reg io' (REG_OCPWM_HRC base) = d /\
    reg io' (REG_OCPWM_CNTR base) = 0 /\
    reg io' (REG_OCPWM_CTRL base) = c' /\
    (forall a, a <> REG_OCPWM_LRC base -> a <> REG_OCPWM_HRC base ->
               a <> REG_OCPWM_CNTR base -> a <> REG_OCPWM_CTRL base ->
               mem io' a = mem io a).
Proof.
  intros Hbase Hpol p d c c'.
  assert (Hp : u32 p = p) by apply u32_idem.
  assert (Hd : u32 d = d) by apply u32_idem.
  assert (Hc' : u32 c' = c') by apply u32_idem.
  unfold ocores_pwm_apply. rewrite Hbase, Hpol.
  fold p d. cbv [lift_ptr bind ret pwm_polarity_eqb negb].
  unfold writel at 1 2 3. unfold readl. cbv [trace mem].
  unfold reg at 1. cbv [mem]. reg_eqb. fold (reg io (REG_OCPWM_CTRL base)). fold c.
  rewrite Hp, Hd. change (u32 0) with 0.
  repeat rewrite <- app_assoc. cbn [app].
  destruct (enabled st) eqn:Hen; unfold writel; cbv [trace mem];
    fold c'; rewrite <- app_assoc; cbn [app];
    (eexists; split; [reflexivity|]);
    unfold reg; cbv [mem trace]; reg_eqb;
    (repeat split; try assumption; try reflexivity);
    intros a H1 H2 H3 H4; reg_eqb; reflexivity.
Qed.

(** A rejected request: the polarity check returns before any access. *)
Lemma apply_reject (pwm : ocores_pwm_device) (hwpwm : Z) (st : pwm_state)
  (io : mmio) (base : Z) :
  ch_base pwm hwpwm = Some base ->
  polarity st <> PWM_POLARITY_INVERSED ->
  ocores_pwm_apply pwm hwpwm st io = Some (- EINVAL, io).
Proof.
  intros Hbase Hpol. unfold ocores_pwm_apply. rewrite Hbase.
  destruct (polarity st); [reflexivity | congruence].
Qed.

(** ** Running the read path *)

Lemma get_state_run (pwm : ocores_pwm_device) (hwpwm : Z) (io : mmio)
  (base : Z) :
  ch_base pwm hwpwm = Some base ->
  let lrc := reg io (REG_OCPWM_LRC base) in
  let hrc := reg io (REG_OCPWM_HRC base) in
  let ctrl := reg io (REG_OCPWM_CTRL base) in
  ocores_pwm_get_state pwm hwpwm io =
    Some ((0,
           mk_pwm_state
             (DIV_ROUND_CLOSEST_ULL (u64 (lrc * NSEC_PER_SEC)) (clk_rate pwm))
             (DIV_ROUND_CLOSEST_ULL (u64 (hrc * NSEC_PER_SEC)) (clk_rate pwm))
             PWM_POLARITY_INVERSED
             (if Z.land ctrl OCPWM_EN =? 0 then false else true)),
          mk_mmio (mem io)
            (trace io ++ [IoRead (REG_OCPWM_LRC base) lrc;
                          IoRead (REG_OCPWM_HRC base) hrc;
                          IoRead (REG_OCPWM_CTRL base) ctrl])).
Proof.
  intros Hbase lrc hrc ctrl.
  unfold ocores_pwm_get_state. rewrite Hbase.
  cbv [lift_ptr bind ret readl]. cbn [mem trace].
  unfold reg. cbn [mem]. fold (reg io (REG_OCPWM_LRC base)).
  fold (reg io (REG_OCPWM_HRC base)). fold (reg io (REG_OCPWM_CTRL base)).
  fold lrc hrc ctrl.
  repeat rewrite <- app_assoc. reflexivity.
Qed.

(** ** Control bits *)

Lemma testbit_u32 (x n : Z) :
  0 <= n -> Z.testbit (u32 x) n = (n <? 32) && Z.testbit x n.
Proof.
  intros Hn. unfold u32. destruct (Z.ltb_spec n 32).
  - now rewrite Z.mod_pow2_bits_low by lia.
  - now rewrite Z.mod_pow2_bits_high by lia.
Qed.

Lemma testbit_reg_high (io : mmio) (a n : Z) :
  32 <= n -> Z.testbit (reg io a) n = false.
Proof.
  intros Hn. unfold reg. rewrite testbit_u32 by lia.
  destruct (Z.ltb_spec n 32); [lia | reflexivity].
Qed.

Lemma testbit_en_oe (n : Z) :
  0 <= n -> Z.testbit (Z.lor OCPWM_EN OCPWM_OE) n = en_oe_bit n.
Proof.
  intros Hn. change (Z.lor OCPWM_EN OCPWM_OE) with 9. unfold en_oe_bit.
  destruct (Z.eq_dec n 0) as [->|]; [reflexivity|].
  destruct (Z.eq_dec n 1) as [->|]; [reflexivity|].
  destruct (Z.eq_dec n 2) as [->|]; [reflexivity|].
  destruct (Z.eq_dec n 3) as [->|]; [reflexivity|].
  rewrite Z.bits_above_log2 by (change (Z.log2 9) with 3; lia).
  rewrite (proj2 (Z.eqb_neq n 0)), (proj2 (Z.eqb_neq n 3)) by lia.
  reflexivity.
Qed.

Lemma testbit_ulong_not (x n : Z) :
  0 <= n -> Z.testbit (ulong_not x) n = (n <? 64) && negb (Z.testbit x n).
Proof.
  intros Hn. unfold ulong_not, u64. destruct (Z.ltb_spec n 64).
  - rewrite Z.mod_pow2_bits_low by lia. now rewrite Z.lnot_spec by lia.
  - now rewrite Z.mod_pow2_bits_high by lia.
Qed.

(** Setting the two bits of a 32-bit value stays within 32 bits. *)
Lemma ctrl_set_bits (c : Z) :
  0 <= c < 2 ^ 32 ->
  u32 (Z.lor (Z.lor c OCPWM_EN) OCPWM_OE) = Z.lor c (Z.lor OCPWM_EN OCPWM_OE).
Proof.
  intros Hc. apply Z.bits_inj'. intros n Hn.
  rewrite testbit_u32 by lia. rewrite <- Z.lor_assoc.
  destruct (Z.ltb_spec n 32); [reflexivity|].
  rewrite Z.lor_spec, testbit_en_oe by lia. unfold en_oe_bit.
  rewrite <- (u32_small c Hc), testbit_u32 by lia.
  destruct (Z.ltb_spec n 32); [lia|].
  rewrite (proj2 (Z.eqb_neq n 0)), (proj2 (Z.eqb_neq n 3)) by lia.
  reflexivity.
Qed.

Lemma testbit_ctrl_cleared (c n : Z) :
  0 <= c < 2 ^ 32 -> 0 <= n ->
  Z.testbit (u32 (Z.land c (ulong_not (Z.lor OCPWM_EN OCPWM_OE)))) n
  = negb (en_oe_bit n) && Z.testbit c n.
Proof.
  intros Hc Hn.
  rewrite testbit_u32, Z.land_spec, testbit_ulong_not, testbit_en_oe by lia.
  rewrite <- (u32_small c Hc), testbit_u32 by lia.
  destruct (Z.ltb_spec n 32), (Z.ltb_spec n 64); try lia;
    destruct (en_oe_bit n), (Z.testbit c n); reflexivity.
Qed.

(** ** Round trip *)

Lemma rounding_unit_covers (rate : Z) :
  0 < rate -> NSEC_PER_SEC <= rate * rounding_unit rate.
Proof.
  intros Hr. unfold rounding_unit, ceil_div.
  pose proof (Z.mul_succ_div_gt (NSEC_PER_SEC + rate - 1) rate Hr). lia.
Qed.

(** Converting nanoseconds to ticks and back, both times to the nearest
    integer, moves a duration by at most one rounding unit. *)
Lemma ns_ticks_ns_close (ns rate : Z) :
  0 < rate ->
  Z.abs (round_to_nearest
           (round_to_nearest (ns * rate) NSEC_PER_SEC * NSEC_PER_SEC) rate - ns)
  <= rounding_unit rate.
Proof.
  intros Hr.
  pose proof (rounding_unit_covers rate Hr) as Hu.
  set (t := round_to_nearest (ns * rate) NSEC_PER_SEC).
  pose proof (round_to_nearest_bounds (ns * rate) NSEC_PER_SEC ltac:(reflexivity)) as Ht.
  fold t in Ht.
  pose proof (round_to_nearest_bounds (t * NSEC_PER_SEC) rate Hr) as Hb.
  set (ns' := round_to_nearest (t * NSEC_PER_SEC) rate) in *.
  set (U := rounding_unit rate) in *.
  unfold NSEC_PER_SEC in *.
  assert (Hup : 2 * (rate * (ns' - ns)) <= 1000000000 + rate) by lia.
  assert (Hdn : 2 * (rate * (ns - ns')) < 1000000000 + rate) by lia.
  apply Z.abs_le. split.
  - destruct (Z.le_gt_cases (- U) (ns' - ns)) as [|Hlt]; [assumption|exfalso].
    assert (rate * (U + 1) <= rate * (ns - ns')) by (apply Z.mul_le_mono_nonneg_l; lia).
    lia.
  - destruct (Z.le_gt_cases (ns' - ns) U) as [|Hlt]; [assumption|exfalso].
    assert (rate * (U + 1) <= rate * (ns' - ns)) by (apply Z.mul_le_mono_nonneg_l; lia).
    lia.
Qed.

(** The enable bit read back after [apply] stored the control word. *)
Lemma enable_bit_after_apply (en : bool) (c : Z) :
  0 <= c < 2 ^ 32 ->
  (if Z.land (u32 (if en
                   then Z.lor (Z.lor c OCPWM_EN) OCPWM_OE
                   else Z.land c (ulong_not (Z.lor OCPWM_EN OCPWM_OE))))
             OCPWM_EN =? 0
   then false else true) = en.
Proof.
  intros Hc.
  set (w := u32 _).
  assert (Hbit : Z.testbit w 0 = en).
  { subst w. destruct en.
    - rewrite ctrl_set_bits by assumption.
      rewrite Z.lor_spec, testbit_en_oe by lia. apply orb_true_r.
    - rewrite testbit_ctrl_cleared by lia. reflexivity. }
  assert (Hland : Z.land w OCPWM_EN = if en then 1 else 0).
  { change OCPWM_EN with (Z.ones 1). rewrite Z.land_ones by lia.
    change (2 ^ 1) with 2. rewrite <- Z.bit0_mod, Hbit.
    destruct en; reflexivity. }
  rewrite Hland. destruct en; reflexivity.
Qed.

(** ** The register range is exactly where the conversion is exact *)

Lemma apply_ticks_range (ns rate : Z) : 0 <= apply_ticks ns rate < 2 ^ 32.
Proof. unfold apply_ticks. apply u32_range. Qed.

Lemma apply_ticks_exact_iff (ns rate : Z) :
  0 <= ns -> 0 < rate ->
  (apply_ticks ns rate = round_to_nearest (ns * rate) NSEC_PER_SEC
   <-> round_to_nearest (ns * rate) NSEC_PER_SEC < 2 ^ 32).
Proof.
  intros Hns Hrate. split.
  - intros <-. apply apply_ticks_range.
  - intros Hfit. now apply apply_ticks_fit.
Qed.

(** The spec's conversion example, in both directions. *)
Example ticks_of_one_millisecond_at_24MHz :
  apply_ticks 1000000 24000000 = 24000 /\
  DIV_ROUND_CLOSEST_ULL (u64 (24000 * NSEC_PER_SEC)) 24000000 = 1000000.
Proof. split; reflexivity. Qed.

(** * The claims *)

(** C1 (amended).  For every logical state with the inversed polarity and
    every positive clock rate such that the tick counts of the period and of
    the duty cycle fit the 32-bit registers, [apply] followed by [get_state]
    on the same channel both return 0, the period and the duty cycle read
    back are within [ceil (1e9 / clk_rate)] nanoseconds of the requested
    ones, and the enabled flag read back is the requested one. *)
Theorem apply_get_state_round_trip (pwm : ocores_pwm_device) (hwpwm : Z)
  (st : pwm_state) (io : mmio) (base : Z) :
  ch_base pwm hwpwm = Some base ->
  0 < clk_rate pwm < 2 ^ 32 ->
  pwm_state_wf st ->
  polarity st = PWM_POLARITY_INVERSED ->
  round_to_nearest (period st * clk_rate pwm) NSEC_PER_SEC < 2 ^ 32 ->
  round_to_nearest (duty_cycle st * clk_rate pwm) NSEC_PER_SEC < 2 ^ 32 ->
  exists io' io'' st',
    ocores_pwm_apply pwm hwpwm st io = Some (0, io') /\
    ocores_pwm_get_state pwm hwpwm io' = Some ((0, st'), io'') /\
    Z.abs (period st' - period st) <= rounding_unit (clk_rate pwm) /\
    Z.abs (duty_cycle st' - duty_cycle st) <= rounding_unit (clk_rate pwm) /\
    enabled st' = enabled st.
Proof.
  intros Hbase Hrate [Hper Hduty] Hpol Hfp Hfd.
  destruct (apply_run pwm hwpwm st io base Hbase Hpol)
    as (io' & Happly & _ & Hlrc & Hhrc & _ & Hctrl & _).
  destruct (apply_ticks_fit (period st) (clk_rate pwm)) as [_ Hp]; try lia.
  destruct (apply_ticks_fit (duty_cycle st) (clk_rate pwm)) as [_ Hd]; try lia.
  exists io'. eexists. eexists.
  split; [exact Happly|].
  split; [apply (get_state_run pwm hwpwm io' base Hbase)|].
  cbn [period duty_cycle enabled].
  rewrite Hlrc, Hhrc, Hctrl, Hp, Hd.
  rewrite !get_state_ns_exact; try lia.
  - split; [apply ns_ticks_ns_close; lia|].
    split; [apply ns_ticks_ns_close; lia|].
    apply enable_bit_after_apply, reg_range.
  - split; [apply round_to_nearest_nonneg; unfold NSEC_PER_SEC; nia | exact Hfd].
  - split; [apply round_to_nearest_nonneg; unfold NSEC_PER_SEC; nia | exact Hfp].
Qed.

Lemma apply_get_state_round_trip_witness :
  exists io' io'' st',
    ocores_pwm_apply (jh71x0_device 0x1000 24000000) 5
      (mk_pwm_state 1000000 333333 PWM_POLARITY_INVERSED true) idle_window
    = Some (0, io') /\
    ocores_pwm_get_state (jh71x0_device 0x1000 24000000) 5 io'
    = Some ((0, st'), io'') /\
    Z.abs (period st' - 1000000) <= rounding_unit 24000000 /\
    Z.abs (duty_cycle st' - 333333) <= rounding_unit 24000000 /\
    enabled st' = true.
Proof.
  apply (apply_get_state_round_trip (jh71x0_device 0x1000 24000000) 5
           (mk_pwm_state 1000000 333333 PWM_POLARITY_INVERSED true)
           idle_window 0x9010).
  - reflexivity.
  - cbn. lia.
  - unfold pwm_state_wf. cbn. lia.
  - reflexivity.
  - vm_compute. reflexivity.
  - vm_compute. reflexivity.
Defined.

(** C1 as stated fails: at 24 MHz a requested period of 200 s needs
    4_800_000_000 ticks, LRC keeps the low 32 bits, and [get_state] reads
    back about 21 s. *)
Lemma apply_get_state_round_trip_counterexample :
  exists io' io'' st',
    ocores_pwm_apply (jh71x0_device 0x1000 24000000) 0
      (mk_pwm_state 200000000000 0 PWM_POLARITY_INVERSED true) idle_window
    = Some (0, io') /\
    ocores_pwm_get_state (jh71x0_device 0x1000 24000000) 0 io'
    = Some ((0, st'), io'') /\
    period st' = 21043029333 /\
    rounding_unit 24000000 = 42 /\
    ~ Z.abs (period st' - 200000000000) <= rounding_unit 24000000.
Proof.
  eexists. eexists. eexists.
  split; [vm_compute; reflexivity|].
  split; [vm_compute; reflexivity|].
  split; [reflexivity|].
  split; [reflexivity|].
  vm_compute. intros H. apply H. reflexivity.
Qed.

(** C2 (amended).  In [apply], for every requested period and duty cycle and
    every positive clock rate for which the rounded tick counts fit the
    32-bit registers, the 64-bit products do not wrap and the values written
    to LRC and HRC are [round_to_nearest (ns * clk_rate / 1e9)], which is a
    nearest integer to the exact quotient; at 24 MHz a period of
    1_000_000 ns gives 24_000 ticks. *)
Theorem apply_writes_rounded_ticks (pwm : ocores_pwm_device) (hwpwm : Z)
  (st : pwm_state) (io : mmio) (base : Z) :
  ch_base pwm hwpwm = Some base ->
  0 < clk_rate pwm ->
  pwm_state_wf st ->
  polarity st = PWM_POLARITY_INVERSED ->
  round_to_nearest (period st * clk_rate pwm) NSEC_PER_SEC < 2 ^ 32 ->
  round_to_nearest (duty_cycle st * clk_rate pwm) NSEC_PER_SEC < 2 ^ 32 ->
  let p := round_to_nearest (period st * clk_rate pwm) NSEC_PER_SEC in
  let d := round_to_nearest (duty_cycle st * clk_rate pwm) NSEC_PER_SEC in
  (exists io' c c',
     ocores_pwm_apply pwm hwpwm st io = Some (0, io') /\
     trace io' = trace io ++
       [IoWrite (REG_OCPWM_LRC base) p; IoWrite (REG_OCPWM_HRC base) d;
        IoWrite (REG_OCPWM_CNTR base) 0; IoRead (REG_OCPWM_CTRL base) c;
        IoWrite (REG_OCPWM_CTRL base) c'] /\
     reg io' (REG_OCPWM_LRC base) = p /\
     reg io' (REG_OCPWM_HRC base) = d) /\
  u64 (period st * clk_rate pwm) = period st * clk_rate pwm /\
  u64 (duty_cycle st * clk_rate pwm) = duty_cycle st * clk_rate pwm /\
  nearest p (period st * clk_rate pwm) NSEC_PER_SEC /\
  nearest d (duty_cycle st * clk_rate pwm) NSEC_PER_SEC /\
  apply_ticks 1000000 24000000 = 24000.
Proof.
  intros Hbase Hrate [Hper Hduty] Hpol Hfp Hfd p d.
  destruct (apply_run pwm hwpwm st io base Hbase Hpol)
    as (io' & Happly & Htrace & Hlrc & Hhrc & _).
  destruct (apply_ticks_fit (period st) (clk_rate pwm)) as [Hup Hp]; try lia.
  destruct (apply_ticks_fit (duty_cycle st) (clk_rate pwm)) as [Hud Hd]; try lia.
  rewrite Hp, Hd in Htrace. rewrite Hp in Hlrc. rewrite Hd in Hhrc.
  split.
  { exists io'. eexists. eexists. repeat split; eassumption. }
  repeat split; try assumption;
    try (apply round_to_nearest_is_nearest; reflexivity).
Qed.

Lemma apply_writes_rounded_ticks_witness :
  exists io' c c',
    ocores_pwm_apply (jh71x0_device 0x1000 24000000) 1
      (mk_pwm_state 1000000 250000 PWM_POLARITY_INVERSED true) idle_window
    = Some (0, io') /\
    trace io' =
      [IoWrite 0x1018 24000; IoWrite 0x1014 6000; IoWrite 0x1010 0;
       IoRead 0x101C c; IoWrite 0x101C c'] /\
    reg io' 0x1018 = 24000 /\
    reg io' 0x1014 = 6000.
Proof.
  apply (apply_writes_rounded_ticks (jh71x0_device 0x1000 24000000) 1
           (mk_pwm_state 1000000 250000 PWM_POLARITY_INVERSED true)
           idle_window 0x1010).
  - reflexivity.
  - cbn. lia.
  - unfold pwm_state_wf. cbn. lia.
  - reflexivity.
  - vm_compute. reflexivity.
  - vm_compute. reflexivity.
Defined.

(** C2 as stated fails.  At 24 MHz a period of 200 s rounds to 4_800_000_000
    ticks, but LRC receives 505_032_704; and for a period of 1000 s the
    64-bit product itself wraps before the division. *)
Lemma apply_writes_rounded_ticks_counterexample :
  (exists io',
     ocores_pwm_apply (jh71x0_device 0x1000 24000000) 0
       (mk_pwm_state 200000000000 0 PWM_POLARITY_INVERSED true) idle_window
     = Some (0, io') /\
     reg io' (REG_OCPWM_LRC 0x1000) = 505032704 /\
     round_to_nearest (200000000000 * 24000000) NSEC_PER_SEC = 4800000000 /\
     reg io' (REG_OCPWM_LRC 0x1000)
     <> round_to_nearest (200000000000 * 24000000) NSEC_PER_SEC) /\
  u64 (1000000000000 * 24000000) <> 1000000000000 * 24000000 /\
  apply_ticks 1000000000000 24000000 = 1258288630 /\
  round_to_nearest (1000000000000 * 24000000) NSEC_PER_SEC = 24000000000.
Proof.
  split.
  { eexists. split; [vm_compute; reflexivity|].
    repeat split; try reflexivity. vm_compute. discriminate. }
  repeat split; try reflexivity. vm_compute. discriminate.
Qed.

(** C3.  For every positive clock rate and all register contents,
    [get_state] returns 0 and reports
    period = [round_to_nearest (LRC * 1e9 / clk_rate)] and
    duty_cycle = [round_to_nearest (HRC * 1e9 / clk_rate)], each a nearest
    integer to the exact quotient with a 64-bit product that does not wrap,
    enabled = [(CTRL & OCPWM_EN) != 0], and the inversed polarity; it only
    reads, leaving every register as it was. *)
Theorem get_state_reports_registers (pwm : ocores_pwm_device) (hwpwm : Z)
  (io : mmio) (base : Z) :
  ch_base pwm hwpwm = Some base ->
  0 < clk_rate pwm < 2 ^ 32 ->
  let lrc := reg io (REG_OCPWM_LRC base) in
  let hrc := reg io (REG_OCPWM_HRC base) in
  let ctrl := reg io (REG_OCPWM_CTRL base) in
  exists st' io',
    ocores_pwm_get_state pwm hwpwm io = Some ((0, st'), io') /\
    period st' = round_to_nearest (lrc * NSEC_PER_SEC) (clk_rate pwm) /\
    duty_cycle st' = round_to_nearest (hrc * NSEC_PER_SEC) (clk_rate pwm) /\
    nearest (period st') (lrc * NSEC_PER_SEC) (clk_rate pwm) /\
    nearest (duty_cycle st') (hrc * NSEC_PER_SEC) (clk_rate pwm) /\
    u64 (lrc * NSEC_PER_SEC) = lrc * NSEC_PER_SEC /\
    u64 (hrc * NSEC_PER_SEC) = hrc * NSEC_PER_SEC /\
    enabled st' = negb (Z.land ctrl OCPWM_EN =? 0) /\
    enabled st' = Z.testbit ctrl 0 /\
    polarity st' = PWM_POLARITY_INVERSED /\
    mem io' = mem io /\
    writes (trace io') = writes (trace io).
Proof.
  intros Hbase Hrate lrc hrc ctrl.
  pose proof (reg_range io (REG_OCPWM_LRC base)) as Hl. fold lrc in Hl.
  pose proof (reg_range io (REG_OCPWM_HRC base)) as Hh. fold hrc in Hh.
  eexists. eexists.
  split; [apply (get_state_run pwm hwpwm io base Hbase)|].
  cbn [period duty_cycle enabled polarity mem trace]. fold lrc hrc ctrl.
  rewrite !get_state_ns_exact by lia.
  assert (Hen : (if Z.land ctrl OCPWM_EN =? 0 then false else true)
                = Z.testbit ctrl 0).
  { change OCPWM_EN with (Z.ones 1). rewrite Z.land_ones by lia.
    change (2 ^ 1) with 2. rewrite <- Z.bit0_mod.
    destruct (Z.testbit ctrl 0); reflexivity. }
  rewrite Hen.
  assert (Hbit : Z.testbit ctrl 0 = negb (Z.land ctrl OCPWM_EN =? 0)).
  { rewrite <- Hen. destruct (Z.land ctrl OCPWM_EN =? 0); reflexivity. }
  assert (Hw : writes
                 (trace io ++
                  [IoRead (REG_OCPWM_LRC base) lrc;
                   IoRead (REG_OCPWM_HRC base) hrc;
                   IoRead (REG_OCPWM_CTRL base) ctrl]) = writes (trace io)).
  { unfold writes. rewrite filter_app. cbn. apply app_nil_r. }
  repeat split;
    solve [ apply round_to_nearest_is_nearest; lia
          | apply u64_small; unfold NSEC_PER_SEC; lia
          | assumption ].
Qed.

Lemma get_state_reports_registers_witness :
  exists st' io',
    ocores_pwm_get_state (jh71x0_device 0x1000 24000000) 6
      (window_with_ctrl 0x9020 0x29) = Some ((0, st'), io') /\
    period st' = 0 /\ duty_cycle st' = 0 /\
    enabled st' = true /\ polarity st' = PWM_POLARITY_INVERSED.
Proof.
  destruct (get_state_reports_registers (jh71x0_device 0x1000 24000000) 6
              (window_with_ctrl 0x9020 0x29) 0x9020)
    as (st' & io' & Hrun & Hp & Hd & _ & _ & _ & _ & _ & Hen & Hpol & _).
  - reflexivity.
  - cbn. lia.
  - exists st', io'. repeat split; assumption.
Defined.

(** C4.  [apply] returns [-EINVAL] (UnsupportedPolarity) exactly when the
    requested polarity is not the inversed one, and 0 otherwise: nothing is
    assumed about the period, the duty cycle or the clock rate.  When it
    fails it has made no register access: the register window and its trace
    are the ones it started from. *)
Theorem apply_validates_polarity_only (pwm : ocores_pwm_device) (hwpwm : Z)
  (st : pwm_state) (io : mmio) (base : Z) :
  ch_base pwm hwpwm = Some base ->
  exists r io',
    ocores_pwm_apply pwm hwpwm st io = Some (r, io') /\
    (r = - EINVAL <-> polarity st <> PWM_POLARITY_INVERSED) /\
    (r = 0 <-> polarity st = PWM_POLARITY_INVERSED) /\
    (r = - EINVAL ->
     io' = io /\
     trace io' = trace io /\
     reg io' (REG_OCPWM_CNTR base) = reg io (REG_OCPWM_CNTR base) /\
     reg io' (REG_OCPWM_HRC base) = reg io (REG_OCPWM_HRC base) /\
     reg io' (REG_OCPWM_LRC base) = reg io (REG_OCPWM_LRC base) /\
     reg io' (REG_OCPWM_CTRL base) = reg io (REG_OCPWM_CTRL base)).
Proof.
  intros Hbase.
  destruct (polarity st) eqn:Hpol.
  - exists (- EINVAL), io.
    split; [apply (apply_reject pwm hwpwm st io base Hbase); congruence|].
    split; [split; [discriminate | reflexivity]|].
    split; [split; discriminate|].
    intros _. repeat split; reflexivity.
  - destruct (apply_run pwm hwpwm st io base Hbase Hpol) as (io' & Happly & _).
    exists 0, io'.
    split; [exact Happly|].
    split; [split; [discriminate | congruence]|].
    split; [split; reflexivity|].
    discriminate.
Qed.

Lemma apply_validates_polarity_only_witness :
  exists r io',
    ocores_pwm_apply (jh71x0_device 0x1000 24000000) 2
      (mk_pwm_state 1000000 500000 PWM_POLARITY_NORMAL true)
      (window_with_ctrl 0x1020 0x20) = Some (r, io') /\
    r = - EINVAL /\ io' = window_with_ctrl 0x1020 0x20.
Proof.
  destruct (apply_validates_polarity_only (jh71x0_device 0x1000 24000000) 2
              (mk_pwm_state 1000000 500000 PWM_POLARITY_NORMAL true)
              (window_with_ctrl 0x1020 0x20) 0x1020)
    as (r & io' & Hrun & Herr & _ & Hsame).
  - reflexivity.
  - assert (Hr : r = - EINVAL) by (apply Herr; discriminate).
    exists r, io'. split; [exact Hrun|].
    split; [exact Hr | apply (Hsame Hr)].
Defined.




(** C6.  The StarFive resolver: for a channel index in [0, 4) the channel
    base is [base + i * 0x10]; for an index in [4, 8) it is
    [base + (i mod 4) * 0x10 + 0x8000]; and a controller whose variant data
    is [jh71x0_pwm_data] resolves its channels with it. *)
Theorem jh71x0_resolver_layout (base i : Z) :
  (0 <= i < 4 -> starfive_jh71x0_get_ch_base base i = base + i * 0x10) /\
  (4 <= i < 8 ->
   starfive_jh71x0_get_ch_base base i = base + (i mod 4) * 0x10 + 0x8000) /\
  (forall rate, ch_base (jh71x0_device base rate) i
                = Some (starfive_jh71x0_get_ch_base base i)).
Proof.
  unfold starfive_jh71x0_get_ch_base. repeat split.
  - intros Hi. destruct (Z.ltb_spec 3 i); [lia|].
    rewrite u32_small by lia. reflexivity.
  - intros Hi. destruct (Z.ltb_spec 3 i); [|lia].
    pose proof (Z.mod_pos_bound i 4 ltac:(lia)).
    change (Z.shiftl 1 15) with 32768.
    rewrite (u32_small (i mod 4 * 16)) by lia.
    rewrite u32_small by lia. lia.
Qed.

Lemma jh71x0_resolver_layout_witness :
  starfive_jh71x0_get_ch_base 0x1000 2 = 0x1020 /\
  starfive_jh71x0_get_ch_base 0x1000 5 = 0x9010.
Proof.
  destruct (jh71x0_resolver_layout 0x1000 2) as (Hlow & _ & _).
  destruct (jh71x0_resolver_layout 0x1000 5) as (_ & Hhigh & _).
  split.
  - rewrite Hlow by lia. reflexivity.
  - rewrite Hhigh by lia. reflexivity.
Defined.

(** C7.  For every prior CTRL value, an accepted [apply] with enabled = true
    writes back CTRL with the enable and output-enable bits set and every
    other bit as it was, and with enabled = false writes it back with those
    two bits cleared and every other bit as it was; from CTRL = 0b0010_0000
    an [apply] with enabled = true leaves CTRL = 0b0010_1001. *)
Theorem apply_preserves_other_ctrl_bits (pwm : ocores_pwm_device) (hwpwm : Z)
  (st : pwm_state) (io : mmio) (base : Z) :
  ch_base pwm hwpwm = Some base ->
  polarity st = PWM_POLARITY_INVERSED ->
  let old := reg io (REG_OCPWM_CTRL base) in
  exists io' new,
    ocores_pwm_apply pwm hwpwm st io = Some (0, io') /\
    reg io' (REG_OCPWM_CTRL base) = new /\
    In (IoWrite (REG_OCPWM_CTRL base) new) (trace io') /\
    (enabled st = true ->
     new = Z.lor old (Z.lor OCPWM_EN OCPWM_OE) /\
     (forall n, 0 <= n ->
                Z.testbit new n = en_oe_bit n || Z.testbit old n) /\
     (old = 0x20 -> new = 0x29)) /\
    (enabled st = false ->
     forall n, 0 <= n ->
               Z.testbit new n = negb (en_oe_bit n) && Z.testbit old n).
Proof.
  intros Hbase Hpol old.
  pose proof (reg_range io (REG_OCPWM_CTRL base)) as Hold. fold old in Hold.
  destruct (apply_run pwm hwpwm st io base Hbase Hpol)
    as (io' & Happly & Htrace & _ & _ & _ & Hctrl & _).
  fold old in Htrace, Hctrl.
  exists io'. eexists.
  split; [exact Happly|].
  split; [exact Hctrl|].
  split.
  { rewrite Htrace. apply in_or_app. right. cbn. tauto. }
  split.
  - intros Hen. rewrite Hen.
    assert (Hnew : u32 (Z.lor (Z.lor old OCPWM_EN) OCPWM_OE)
                   = Z.lor old (Z.lor OCPWM_EN OCPWM_OE))
      by (apply ctrl_set_bits; exact Hold).
    rewrite Hnew. split; [reflexivity|]. split.
    + intros n Hn. rewrite Z.lor_spec, testbit_en_oe by lia. apply orb_comm.
    + intros ->. reflexivity.
  - intros Hen. rewrite Hen. intros n Hn.
    apply testbit_ctrl_cleared; assumption.
Qed.

Lemma apply_preserves_other_ctrl_bits_witness :
  exists io',
    ocores_pwm_apply (jh71x0_device 0x1000 24000000) 2
      (mk_pwm_state 1000000 500000 PWM_POLARITY_INVERSED true)
      (window_with_ctrl 0x1020 0x20) = Some (0, io') /\
    reg io' (REG_OCPWM_CTRL 0x1020) = 0x29.
Proof.
  destruct (apply_preserves_other_ctrl_bits (jh71x0_device 0x1000 24000000) 2
              (mk_pwm_state 1000000 500000 PWM_POLARITY_INVERSED true)
              (window_with_ctrl 0x1020 0x20) 0x1020)
    as (io' & new & Hrun & Hreg & _ & Hset & _).
  - reflexivity.
  - reflexivity.
  - exists io'. split; [exact Hrun|].
    rewrite Hreg. apply Hset; reflexivity.
Defined.

(** C8.  Every accepted [apply] (inversed polarity) returns 0 after exactly
    these accesses, in this order: the period tick count to LRC, the duty
    tick count to HRC, 0 to CNTR, then the read and the write-back of CTRL.
    Afterwards LRC and HRC hold the tick counts and CNTR holds 0. *)
Theorem apply_write_sequence (pwm : ocores_pwm_device) (hwpwm : Z)
  (st : pwm_state) (io : mmio) (base : Z) :
  ch_base pwm hwpwm = Some base ->
  polarity st = PWM_POLARITY_INVERSED ->
  let p := apply_ticks (period st) (clk_rate pwm) in
  let d := apply_ticks (duty_cycle st) (clk_rate pwm) in
  exists io' c c',
    ocores_pwm_apply pwm hwpwm st io = Some (0, io') /\
    trace io' = trace io ++
      [IoWrite (REG_OCPWM_LRC base) p; IoWrite (REG_OCPWM_HRC base) d;
       IoWrite (REG_OCPWM_CNTR base) 0; IoRead (REG_OCPWM_CTRL base) c;
       IoWrite (REG_OCPWM_CTRL base) c'] /\
    writes (trace io') = writes (trace io) ++
      [IoWrite (REG_OCPWM_LRC base) p; IoWrite (REG_OCPWM_HRC base) d;
       IoWrite (REG_OCPWM_CNTR base) 0; IoWrite (REG_OCPWM_CTRL base) c'] /\
    reg io' (REG_OCPWM_LRC base) = p /\
    reg io' (REG_OCPWM_HRC base) = d /\
    reg io' (REG_OCPWM_CNTR base) = 0.
Proof.
  intros Hbase Hpol p d.
  destruct (apply_run pwm hwpwm st io base Hbase Hpol)
    as (io' & Happly & Htrace & Hlrc & Hhrc & Hcntr & _).
  exists io'. eexists. eexists.
  split; [exact Happly|].
  split; [exact Htrace|].
  split; [|repeat split; assumption].
  rewrite Htrace. unfold writes. rewrite filter_app. reflexivity.
Qed.

Lemma apply_write_sequence_witness :
  exists io' c',
    ocores_pwm_apply (jh71x0_device 0x1000 24000000) 4
      (mk_pwm_state 1000000 500000 PWM_POLARITY_INVERSED false) idle_window
    = Some (0, io') /\
    writes (trace io') =
      [IoWrite 0x9008 24000; IoWrite 0x9004 12000; IoWrite 0x9000 0;
       IoWrite 0x900C c'] /\
    reg io' 0x9000 = 0.
Proof.
  destruct (apply_write_sequence (jh71x0_device 0x1000 24000000) 4
              (mk_pwm_state 1000000 500000 PWM_POLARITY_INVERSED false)
              idle_window 0x9000)
    as (io' & c & c' & Hrun & _ & Hwrites & _ & _ & Hcntr).
  - reflexivity.
  - reflexivity.
  - exists io', c'. split; [exact Hrun|]. split; [exact Hwrites | exact Hcntr].
Defined.

(** C9.  When the steps before it succeed and the clock rate stored in the
    32-bit [clk_rate] field is zero (it cannot be negative), the probe
    returns [-EINVAL] (InvalidClockRate) without having registered the chip
    or set the driver data, and without any register access.  Whatever the
    earlier steps answer, a probe with such a clock never registers the
    chip. *)
Theorem probe_rejects_zero_clock_rate (pdev : platform_device) (io : mmio)
  (rate : Z) :
  devm_clk_get_enabled pdev = inr rate ->
  u32 rate <= 0 ->
  (forall id regs,
     of_match_device ocores_pwm_of_match (dev_compatible pdev) = Some id ->
     devm_kzalloc_ok pdev = true ->
     devm_platform_ioremap_resource pdev = inr regs ->
     exists res,
       ocores_pwm_probe pdev io = Some (res, io) /\
       probe_ret res = - EINVAL /\
       registered res = None /\
       drvdata res = None /\
       ~ In ClkDisableUnprepare (actions res)) /\
  (exists res,
     ocores_pwm_probe pdev io = Some (res, io) /\
     registered res = None /\
     drvdata res = None).
Proof.
  intros Hclk Hzero.
  assert (Hgate : (u32 rate <=? 0) = true) by (apply Z.leb_le; exact Hzero).
  split.
  - intros id regs Hid Halloc Hmap.
    unfold ocores_pwm_probe. rewrite Hid, Halloc, Hmap, Hclk.
    cbn [negb clk_rate]. rewrite Hgate.
    eexists. split; [reflexivity|]. cbn.
    repeat split. intros [H|[H|[]]]; discriminate.
  - unfold ocores_pwm_probe.
    destruct (of_match_device ocores_pwm_of_match (dev_compatible pdev));
      [|eexists; split; [reflexivity | split; reflexivity]].
    destruct (devm_kzalloc_ok pdev); cbn [negb];
      [|eexists; split; [reflexivity | split; reflexivity]].
    destruct (devm_platform_ioremap_resource pdev);
      [eexists; split; [reflexivity | split; reflexivity]|].
    rewrite Hclk. cbn [clk_rate]. rewrite Hgate.
    eexists; split; [reflexivity | split; reflexivity].
Qed.

Lemma probe_rejects_zero_clock_rate_witness :
  exists res,
    ocores_pwm_probe
      (mk_platform_device "starfive,jh71x0-pwm" true (inr 0x1000) (inr 0) 0)
      idle_window = Some (res, idle_window) /\
    probe_ret res = - EINVAL /\
    registered res = None.
Proof.
  destruct (probe_rejects_zero_clock_rate
              (mk_platform_device "starfive,jh71x0-pwm" true (inr 0x1000)
                 (inr 0) 0) idle_window 0) as [Hgate _].
  - reflexivity.
  - vm_compute. discriminate.
  - destruct (Hgate (mk_of_device_id "starfive,jh71x0-pwm"
                       (Some jh71x0_pwm_data)) 0x1000)
      as (res & Hrun & Hret & Hreg & _); try reflexivity.
    exists res. repeat split; assumption.
Defined.

(** C10.  The StarFive resolver is defined for every channel index: for
    every index [c >= 4], also at or beyond the 8 declared channels, it
    returns [base + (c mod 4) * 0x10 + 0x8000]; hence the indices [c] and
    [c + 4] resolve to the same register block of the secondary bank. *)
Theorem jh71x0_resolver_aliases_mod_4 (base c : Z) :
  4 <= c ->
  starfive_jh71x0_get_ch_base base c = base + (c mod 4) * 0x10 + 0x8000 /\
  starfive_jh71x0_get_ch_base base c
  = starfive_jh71x0_get_ch_base base (c + 4).
Proof.
  intros Hc.
  assert (Hhigh : forall k, 4 <= k ->
            starfive_jh71x0_get_ch_base base k
            = base + (k mod 4) * 0x10 + 0x8000).
  { intros k Hk. unfold starfive_jh71x0_get_ch_base.
    destruct (Z.ltb_spec 3 k); [|lia].
    pose proof (Z.mod_pos_bound k 4 ltac:(lia)).
    change (Z.shiftl 1 15) with 32768.
    rewrite (u32_small (k mod 4 * 16)) by lia.
    rewrite u32_small by lia. lia. }
  split; [apply Hhigh; exact Hc|].
  rewrite (Hhigh c Hc), (Hhigh (c + 4)) by lia.
  replace (c + 4) with (c + 1 * 4) by lia.
  rewrite Z_mod_plus_full. reflexivity.
Qed.

Lemma jh71x0_resolver_aliases_mod_4_witness :
  starfive_jh71x0_get_ch_base 0x1000 9 = 0x9010 /\
  starfive_jh71x0_get_ch_base 0x1000 9
  = starfive_jh71x0_get_ch_base 0x1000 13.
Proof.
  apply (jh71x0_resolver_aliases_mod_4 0x1000 9). lia.
Defined.

(** * Further properties of the driver *)

(** ** Helper facts *)

Lemma round_to_nearest_unique (n d q : Z) :
  0 < d -> 2 * d * q <= 2 * n + d < 2 * d * q + 2 * d ->
  round_to_nearest n d = q.
Proof.
  intros Hd Hq. unfold round_to_nearest. symmetry.
  apply Z.div_unique with (r := 2 * n + d - 2 * d * q); lia.
Qed.

Lemma round_to_nearest_mono (n m d : Z) :
  0 < d -> n <= m -> round_to_nearest n d <= round_to_nearest m d.
Proof.
  intros Hd Hnm. unfold round_to_nearest. apply Z.div_le_mono; lia.
Qed.

(** With a clock of at most 1 GHz a tick lasts at least a nanosecond, and a
    register value survives the conversion to nanoseconds and back. *)
Lemma ticks_ns_ticks (t rate : Z) :
  0 <= t < 2 ^ 32 -> 0 < rate <= NSEC_PER_SEC ->
  apply_ticks (round_to_nearest (t * NSEC_PER_SEC) rate) rate = t.
Proof.
  intros Ht Hr.
  pose proof (round_to_nearest_bounds (t * NSEC_PER_SEC) rate ltac:(lia)) as Hb.
  set (ns := round_to_nearest (t * NSEC_PER_SEC) rate) in *.
  assert (Hns : 0 <= ns)
    by (apply round_to_nearest_nonneg; unfold NSEC_PER_SEC; lia).
  assert (Hback : round_to_nearest (ns * rate) NSEC_PER_SEC = t).
  { apply round_to_nearest_unique; [reflexivity|].
    unfold NSEC_PER_SEC in *.
    replace (2 * rate * ns) with (2 * (ns * rate)) in Hb by ring.
    destruct (Z.eq_dec rate 1000000000) as [->|Hne]; lia. }
  destruct (apply_ticks_fit ns rate) as [_ Hfit]; lia.
Qed.

Lemma en_oe_bit_cases (n : Z) : en_oe_bit n = true -> n = 0 \/ n = 3.
Proof.
  unfold en_oe_bit. intros H. apply orb_true_iff in H.
  destruct H as [H|H]; apply Z.eqb_eq in H; lia.
Qed.

Lemma ctrl_update_range (en : bool) (c : Z) : 0 <= ctrl_update en c < 2 ^ 32.
Proof. apply u32_range. Qed.

Lemma testbit_ctrl_update (en : bool) (c n : Z) :
  0 <= c < 2 ^ 32 -> 0 <= n ->
  Z.testbit (ctrl_update en c) n
  = if en then en_oe_bit n || Z.testbit c n
    else negb (en_oe_bit n) && Z.testbit c n.
Proof.
  intros Hc Hn. unfold ctrl_update. destruct en.
  - rewrite ctrl_set_bits by assumption.
    rewrite Z.lor_spec, testbit_en_oe by lia. apply orb_comm.
  - now apply testbit_ctrl_cleared.
Qed.

(** Only the last request decides the two bits. *)
Lemma ctrl_update_absorb (e1 e2 : bool) (c : Z) :
  0 <= c < 2 ^ 32 ->
  ctrl_update e2 (ctrl_update e1 c) = ctrl_update e2 c.
Proof.
  intros Hc. apply Z.bits_inj'. intros n Hn.
  rewrite !testbit_ctrl_update by (try apply ctrl_update_range; lia).
  destruct e1, e2, (en_oe_bit n), (Z.testbit c n); reflexivity.
Qed.

(** A control word whose output-enable bit equals its enable bit is what
    [apply] writes back for the enabled flag read from it. *)
Lemma ctrl_update_fixpoint (c : Z) :
  0 <= c < 2 ^ 32 ->
  Z.testbit c 3 = Z.testbit c 0 ->
  ctrl_update (Z.testbit c 0) c = c.
Proof.
  intros Hc H3. apply Z.bits_inj'. intros n Hn.
  rewrite testbit_ctrl_update by lia.
  destruct (en_oe_bit n) eqn:Hbit.
  - destruct (en_oe_bit_cases n Hbit) as [->| ->];
      [|rewrite H3]; destruct (Z.testbit c 0); reflexivity.
  - destruct (Z.testbit c 0); reflexivity.
Qed.

(** ** The StarFive resolver on all channel indices *)

Lemma jh71x0_offset (base channel : Z) :
  0 <= channel ->
  starfive_jh71x0_get_ch_base base channel
  = base + (if 3 <? channel then (channel mod 4) * 0x10 + 0x8000
            else channel * 0x10).
Proof.
  intros Hc. unfold starfive_jh71x0_get_ch_base.
  pose proof (Z.mod_pos_bound channel 4 ltac:(lia)).
  change (Z.shiftl 1 15) with 32768.
  destruct (Z.ltb_spec 3 channel).
  - rewrite (u32_small (channel mod 4 * 16)) by lia.
    rewrite u32_small by lia. reflexivity.
  - rewrite u32_small by lia. reflexivity.
Qed.

Lemma jh71x0_blocks_apart (base i j : Z) :
  0 <= i < 8 -> 0 <= j < 8 -> i <> j ->
  16 <= Z.abs (starfive_jh71x0_get_ch_base base i
               - starfive_jh71x0_get_ch_base base j).
Proof.
  intros Hi Hj Hij.
  rewrite (jh71x0_offset base i), (jh71x0_offset base j) by lia.
  pose proof (Z.div_mod i 4 ltac:(lia)) as Di.
  pose proof (Z.mod_pos_bound i 4 ltac:(lia)) as Bi.
  pose proof (Z.div_mod j 4 ltac:(lia)) as Dj.
  pose proof (Z.mod_pos_bound j 4 ltac:(lia)) as Bj.
  destruct (Z.ltb_spec 3 i), (Z.ltb_spec 3 j); lia.
Qed.

Lemma blocks_apart_disjoint (b1 b2 a : Z) :
  16 <= Z.abs (b1 - b2) -> In a (block_regs b1) -> ~ In a (block_regs b2).
Proof.
  intros Hd Ha Hb.
  unfold block_regs, REG_OCPWM_CNTR, REG_OCPWM_HRC, REG_OCPWM_LRC,
    REG_OCPWM_CTRL in Ha, Hb.
  cbn [In] in Ha, Hb. lia.
Qed.

(** Addresses outside the resolved block keep their contents, whether the
    request is accepted or not. *)
Lemma apply_frame (pwm : ocores_pwm_device) (hwpwm : Z) (st : pwm_state)
  (io : mmio) (base : Z) :
  ch_base pwm hwpwm = Some base ->
  exists r io',
    ocores_pwm_apply pwm hwpwm st io = Some (r, io') /\
    (forall a, ~ In a (block_regs base) -> mem io' a = mem io a).
Proof.
  intros Hbase. destruct (polarity st) eqn:Hpol.
  - exists (- EINVAL), io.
    split; [apply (apply_reject pwm hwpwm st io base Hbase); congruence|].
    reflexivity.
  - destruct (apply_run pwm hwpwm st io base Hbase Hpol)
      as (io' & Happly & _ & _ & _ & _ & _ & Hframe).
    exists 0, io'. split; [exact Happly|].
    intros a Ha. apply Hframe; intros ->; apply Ha; cbn; tauto.
Qed.

(** X1.  For every [unsigned int] channel index the [unsigned int]
    arithmetic of the StarFive resolver does not wrap: the offset from the
    base is [channel * 0x10] up to channel 3 and
    [(channel mod 4) * 0x10 + 0x8000] above, a multiple of 16 between 0 and
    0x8030. *)
Theorem jh71x0_offset_never_wraps (base channel : Z) :
  0 <= channel ->
  starfive_jh71x0_get_ch_base base channel
  = base + (if 3 <? channel then (channel mod 4) * 0x10 + 0x8000
            else channel * 0x10) /\
  0 <= starfive_jh71x0_get_ch_base base channel - base <= 0x8030 /\
  (starfive_jh71x0_get_ch_base base channel - base) mod 0x10 = 0.
Proof.
  intros Hc.
  pose proof (jh71x0_offset base channel Hc) as Heq.
  split; [exact Heq|]. rewrite Heq.
  pose proof (Z.mod_pos_bound channel 4 ltac:(lia)).
  destruct (Z.ltb_spec 3 channel).
  - split; [lia|].
    replace (base + (channel mod 4 * 16 + 32768) - base)
      with ((channel mod 4 + 2048) * 16) by lia.
    apply Z_mod_mult.
  - split; [lia|].
    replace (base + channel * 16 - base) with (channel * 16) by lia.
    apply Z_mod_mult.
Qed.

Lemma jh71x0_offset_never_wraps_witness :
  starfive_jh71x0_get_ch_base 0x1000 4294967295 = 0x1000 + 0x8030.
Proof.
  destruct (jh71x0_offset_never_wraps 0x1000 4294967295) as [Heq _].
  - lia.
  - rewrite Heq. reflexivity.
Defined.

(** X2.  The eight channels of the StarFive variant have pairwise disjoint
    register blocks: two different channel indices below 8 resolve to bases
    at least 16 bytes apart, so none of their register addresses coincide. *)
Theorem jh71x0_channel_blocks_disjoint (base i j : Z) :
  0 <= i < 8 -> 0 <= j < 8 -> i <> j ->
  16 <= Z.abs (starfive_jh71x0_get_ch_base base i
               - starfive_jh71x0_get_ch_base base j) /\
  (forall a b,
     In a (block_regs (starfive_jh71x0_get_ch_base base i)) ->
     In b (block_regs (starfive_jh71x0_get_ch_base base j)) ->
     a <> b).
Proof.
  intros Hi Hj Hij.
  pose proof (jh71x0_blocks_apart base i j Hi Hj Hij) as Hd.
  split; [exact Hd|].
  intros a b Ha Hb ->.
  exact (blocks_apart_disjoint _ _ b Hd Ha Hb).
Qed.

Lemma jh71x0_channel_blocks_disjoint_witness :
  16 <= Z.abs (starfive_jh71x0_get_ch_base 0x1000 3
               - starfive_jh71x0_get_ch_base 0x1000 7).
Proof.
  apply (jh71x0_channel_blocks_disjoint 0x1000 3 7); lia.
Defined.

(** ** What [apply] leaves alone *)

(** X3.  Whatever the request, [apply] returns, and it touches nothing
    outside the four registers of the resolved channel block: every other
    address keeps its contents and every access it adds to the trace goes to
    one of those four addresses. *)
Theorem apply_touches_only_its_block (pwm : ocores_pwm_device) (hwpwm : Z)
  (st : pwm_state) (io : mmio) (base : Z) :
  ch_base pwm hwpwm = Some base ->
  exists r io' evs,
    ocores_pwm_apply pwm hwpwm st io = Some (r, io') /\
    trace io' = trace io ++ evs /\
    Forall (fun e => In (io_addr e) (block_regs base)) evs /\
    (forall a, ~ In a (block_regs base) -> mem io' a = mem io a).
Proof.
  intros Hbase. destruct (polarity st) eqn:Hpol.
  - exists (- EINVAL), io, [].
    split; [apply (apply_reject pwm hwpwm st io base Hbase); congruence|].
    split; [symmetry; apply app_nil_r|].
    split; [constructor | reflexivity].
  - destruct (apply_run pwm hwpwm st io base Hbase Hpol)
      as (io' & Happly & Htrace & _ & _ & _ & _ & Hframe).
    exists 0, io'. eexists.
    split; [exact Happly|]. split; [exact Htrace|]. split.
    + repeat constructor; cbn; tauto.
    + intros a Ha. apply Hframe; intros ->; apply Ha; cbn; tauto.
Qed.

Lemma apply_touches_only_its_block_witness :
  exists r io' evs,
    ocores_pwm_apply (jh71x0_device 0x1000 24000000) 1
      (mk_pwm_state 1000000 500000 PWM_POLARITY_INVERSED true) idle_window
    = Some (r, io') /\
    trace io' = trace idle_window ++ evs /\
    Forall (fun e => In (io_addr e) (block_regs 0x1010)) evs /\
    (forall a, ~ In a (block_regs 0x1010) -> mem io' a = mem idle_window a).
Proof.
  apply (apply_touches_only_its_block (jh71x0_device 0x1000 24000000) 1
           (mk_pwm_state 1000000 500000 PWM_POLARITY_INVERSED true)
           idle_window 0x1010).
  reflexivity.
Defined.

(** X4.  On a controller of the StarFive variant, [apply] on one of the
    eight channels never changes what another of them holds: the four
    registers of the other channel keep their contents and [get_state] on
    it reports the same state as before. *)
Theorem apply_leaves_other_channels (pwm : ocores_pwm_device) (i j : Z)
  (st : pwm_state) (io : mmio) :
  data pwm = Some jh71x0_pwm_data ->
  0 <= i < 8 -> 0 <= j < 8 -> i <> j ->
  exists r io',
    ocores_pwm_apply pwm i st io = Some (r, io') /\
    (forall a,
       In a (block_regs (starfive_jh71x0_get_ch_base (regs pwm) j)) ->
       reg io' a = reg io a) /\
    (exists s, option_map fst (ocores_pwm_get_state pwm j io) = Some (0, s) /\
               option_map fst (ocores_pwm_get_state pwm j io') = Some (0, s)).
Proof.
  intros Hdata Hi Hj Hij.
  assert (Hbi : ch_base pwm i
                = Some (starfive_jh71x0_get_ch_base (regs pwm) i))
    by (unfold ch_base; rewrite Hdata; reflexivity).
  assert (Hbj : ch_base pwm j
                = Some (starfive_jh71x0_get_ch_base (regs pwm) j))
    by (unfold ch_base; rewrite Hdata; reflexivity).
  set (bi := starfive_jh71x0_get_ch_base (regs pwm) i) in *.
  set (bj := starfive_jh71x0_get_ch_base (regs pwm) j) in *.
  destruct (apply_frame pwm i st io bi Hbi) as (r & io' & Happly & Hframe).
  assert (Hd : 16 <= Z.abs (bj - bi))
    by (apply jh71x0_blocks_apart; [assumption | assumption | congruence]).
  assert (Hregs : forall a, In a (block_regs bj) -> reg io' a = reg io a).
  { intros a Ha. unfold reg. rewrite Hframe; [reflexivity|].
    exact (blocks_apart_disjoint bj bi a Hd Ha). }
  exists r, io'. split; [exact Happly|]. split; [exact Hregs|].
  rewrite (get_state_run pwm j io bj Hbj), (get_state_run pwm j io' bj Hbj).
  cbn [option_map fst].
  rewrite !Hregs by (cbn; tauto).
  eexists. split; reflexivity.
Qed.

Lemma apply_leaves_other_channels_witness :
  exists r io',
    ocores_pwm_apply (jh71x0_device 0x1000 24000000) 1
      (mk_pwm_state 1000000 500000 PWM_POLARITY_INVERSED true)
      (window_with_ctrl 0x9010 0x29) = Some (r, io') /\
    reg io' (REG_OCPWM_CTRL 0x9010) = 0x29.
Proof.
  destruct (apply_leaves_other_channels (jh71x0_device 0x1000 24000000) 1 5
              (mk_pwm_state 1000000 500000 PWM_POLARITY_INVERSED true)
              (window_with_ctrl 0x9010 0x29))
    as (r & io' & Hrun & Hregs & _); try lia.
  - reflexivity.
  - exists r, io'. split; [exact Hrun|].
    rewrite (Hregs (REG_OCPWM_CTRL 0x9010)); [reflexivity|].
    cbn. tauto.
Defined.

(** ** How requests compose *)

(** X5.  Only the last accepted request counts: after two accepted [apply]
    calls on a channel every register holds what it would hold after the
    second call alone.  In particular repeating a request changes
    nothing. *)
Theorem apply_last_request_wins (pwm : ocores_pwm_device) (hwpwm : Z)
  (st1 st2 : pwm_state) (io : mmio) (base : Z) :
  ch_base pwm hwpwm = Some base ->
  polarity st1 = PWM_POLARITY_INVERSED ->
  polarity st2 = PWM_POLARITY_INVERSED ->
  exists io1 io12 io2,
    ocores_pwm_apply pwm hwpwm st1 io = Some (0, io1) /\
    ocores_pwm_apply pwm hwpwm st2 io1 = Some (0, io12) /\
    ocores_pwm_apply pwm hwpwm st2 io = Some (0, io2) /\
    (forall a, reg io12 a = reg io2 a).
Proof.
  intros Hbase Hp1 Hp2.
  destruct (apply_run pwm hwpwm st1 io base Hbase Hp1)
    as (io1 & Ha1 & _ & _ & _ & _ & Hc1 & Hf1).
  destruct (apply_run pwm hwpwm st2 io1 base Hbase Hp2)
    as (io12 & Ha12 & _ & Hl12 & Hh12 & Hn12 & Hc12 & Hf12).
  destruct (apply_run pwm hwpwm st2 io base Hbase Hp2)
    as (io2 & Ha2 & _ & Hl2 & Hh2 & Hn2 & Hc2 & Hf2).
  exists io1, io12, io2. repeat (split; [assumption|]).
  intros a.
  destruct (Z.eq_dec a (REG_OCPWM_LRC base)) as [->|Hl]; [congruence|].
  destruct (Z.eq_dec a (REG_OCPWM_HRC base)) as [->|Hh]; [congruence|].
  destruct (Z.eq_dec a (REG_OCPWM_CNTR base)) as [->|Hn]; [congruence|].
  destruct (Z.eq_dec a (REG_OCPWM_CTRL base)) as [->|Hc].
  - rewrite Hc12, Hc2, Hc1.
    apply (ctrl_update_absorb (enabled st1) (enabled st2)), reg_range.
  - unfold reg. rewrite Hf12, Hf1, Hf2 by assumption. reflexivity.
Qed.

Lemma apply_last_request_wins_witness :
  exists io1 io12 io2,
    ocores_pwm_apply (jh71x0_device 0x1000 24000000) 0
      (mk_pwm_state 1000000 500000 PWM_POLARITY_INVERSED true)
      (window_with_ctrl 0x1000 0x20) = Some (0, io1) /\
    ocores_pwm_apply (jh71x0_device 0x1000 24000000) 0
      (mk_pwm_state 2000000 100000 PWM_POLARITY_INVERSED false) io1
    = Some (0, io12) /\
    ocores_pwm_apply (jh71x0_device 0x1000 24000000) 0
      (mk_pwm_state 2000000 100000 PWM_POLARITY_INVERSED false)
      (window_with_ctrl 0x1000 0x20) = Some (0, io2) /\
    (forall a, reg io12 a = reg io2 a).
Proof.
  apply (apply_last_request_wins (jh71x0_device 0x1000 24000000) 0
           (mk_pwm_state 1000000 500000 PWM_POLARITY_INVERSED true)
           (mk_pwm_state 2000000 100000 PWM_POLARITY_INVERSED false)
           (window_with_ctrl 0x1000 0x20) 0x1000); reflexivity.
Defined.

(** X6.  The enabled flag always round-trips: after any accepted [apply],
    whatever the period, the duty cycle and the clock rate, [get_state] on
    the same channel reports the requested enabled flag and the inversed
    polarity. *)
Theorem enabled_flag_round_trips (pwm : ocores_pwm_device) (hwpwm : Z)
  (st : pwm_state) (io : mmio) (base : Z) :
  ch_base pwm hwpwm = Some base ->
  polarity st = PWM_POLARITY_INVERSED ->
  exists io' io'' st',
    ocores_pwm_apply pwm hwpwm st io = Some (0, io') /\
    ocores_pwm_get_state pwm hwpwm io' = Some ((0, st'), io'') /\
    enabled st' = enabled st /\
    polarity st' = polarity st.
Proof.
  intros Hbase Hpol.
  destruct (apply_run pwm hwpwm st io base Hbase Hpol)
    as (io' & Happly & _ & _ & _ & _ & Hctrl & _).
  exists io'. eexists. eexists.
  split; [exact Happly|].
  split; [apply (get_state_run pwm hwpwm io' base Hbase)|].
  cbn [enabled polarity]. rewrite Hctrl.
  split; [apply enable_bit_after_apply, reg_range | congruence].
Qed.

Lemma enabled_flag_round_trips_witness :
  exists io' io'' st',
    ocores_pwm_apply (jh71x0_device 0x1000 24000000) 0
      (mk_pwm_state 200000000000 0 PWM_POLARITY_INVERSED false)
      (window_with_ctrl 0x1000 0xFFFFFFFF) = Some (0, io') /\
    ocores_pwm_get_state (jh71x0_device 0x1000 24000000) 0 io'
    = Some ((0, st'), io'') /\
    enabled st' = false /\
    polarity st' = PWM_POLARITY_INVERSED.
Proof.
  apply (enabled_flag_round_trips (jh71x0_device 0x1000 24000000) 0
           (mk_pwm_state 200000000000 0 PWM_POLARITY_INVERSED false)
           (window_with_ctrl 0x1000 0xFFFFFFFF) 0x1000); reflexivity.
Defined.

(** X7.  With a clock of at most 1 GHz, writing back what [get_state]
    reports is stable: [apply] of the state just read stores the same LRC
    and HRC values again, resets CNTR to 0, and leaves CTRL as it was
    whenever its output-enable bit equals its enable bit. *)
Theorem apply_of_get_state_is_stable (pwm : ocores_pwm_device) (hwpwm : Z)
  (io : mmio) (base : Z) :
  ch_base pwm hwpwm = Some base ->
  0 < clk_rate pwm <= NSEC_PER_SEC ->
  exists st io1 io2,
    ocores_pwm_get_state pwm hwpwm io = Some ((0, st), io1) /\
    ocores_pwm_apply pwm hwpwm st io1 = Some (0, io2) /\
    reg io2 (REG_OCPWM_LRC base) = reg io (REG_OCPWM_LRC base) /\
    reg io2 (REG_OCPWM_HRC base) = reg io (REG_OCPWM_HRC base) /\
    reg io2 (REG_OCPWM_CNTR base) = 0 /\
    (Z.testbit (reg io (REG_OCPWM_CTRL base)) 3
     = Z.testbit (reg io (REG_OCPWM_CTRL base)) 0 ->
     reg io2 (REG_OCPWM_CTRL base) = reg io (REG_OCPWM_CTRL base)).
Proof.
  intros Hbase Hrate.
  pose proof (get_state_run pwm hwpwm io base Hbase) as Hget.
  cbv zeta in Hget.
  set (lrc := reg io (REG_OCPWM_LRC base)) in *.
  set (hrc := reg io (REG_OCPWM_HRC base)) in *.
  set (ctrl := reg io (REG_OCPWM_CTRL base)) in *.
  pose proof (reg_range io (REG_OCPWM_LRC base)) as Hl. fold lrc in Hl.
  pose proof (reg_range io (REG_OCPWM_HRC base)) as Hh. fold hrc in Hh.
  pose proof (reg_range io (REG_OCPWM_CTRL base)) as Hc. fold ctrl in Hc.
  assert (Hr32 : 0 < clk_rate pwm < 2 ^ 32) by (unfold NSEC_PER_SEC in *; lia).
  rewrite !get_state_ns_exact in Hget by assumption.
  assert (Hen : (if Z.land ctrl OCPWM_EN =? 0 then false else true)
                = Z.testbit ctrl 0).
  { change OCPWM_EN with (Z.ones 1). rewrite Z.land_ones by lia.
    change (2 ^ 1) with 2. rewrite <- Z.bit0_mod.
    destruct (Z.testbit ctrl 0); reflexivity. }
  rewrite Hen in Hget.
  match type of Hget with _ = Some ((0, ?s), ?w) =>
    set (st := s) in *; set (io1 := w) in * end.
  destruct (apply_run pwm hwpwm st io1 base Hbase eq_refl)
    as (io2 & Happly & _ & Hlrc & Hhrc & Hcntr & Hctrl & _).
  exists st, io1, io2.
  split; [exact Hget|]. split; [exact Happly|].
  cbn [period duty_cycle enabled st] in Hlrc, Hhrc, Hctrl.
  rewrite ticks_ns_ticks in Hlrc, Hhrc by assumption.
  repeat (split; [assumption|]).
  intros Hoe. rewrite Hctrl.
  change (reg io1 (REG_OCPWM_CTRL base)) with ctrl.
  apply (ctrl_update_fixpoint ctrl Hc Hoe).
Qed.

Lemma apply_of_get_state_is_stable_witness :
  exists st io1 io2,
    ocores_pwm_get_state (jh71x0_device 0x1000 24000000) 0
      (window_with_ctrl 0x1000 0x29) = Some ((0, st), io1) /\
    ocores_pwm_apply (jh71x0_device 0x1000 24000000) 0 st io1
    = Some (0, io2) /\
    reg io2 (REG_OCPWM_CTRL 0x1000) = 0x29.
Proof.
  destruct (apply_of_get_state_is_stable (jh71x0_device 0x1000 24000000) 0
              (window_with_ctrl 0x1000 0x29) 0x1000)
    as (st & io1 & io2 & Hget & Happly & _ & _ & _ & Hctrl).
  - reflexivity.
  - cbn. unfold NSEC_PER_SEC. lia.
  - exists st, io1, io2. split; [exact Hget|]. split; [exact Happly|].
    rewrite Hctrl; reflexivity.
Defined.

(** ** Order between duty cycle and period *)

(** X8.  [apply] keeps a well-formed request well-formed: when the duty
    cycle is at most the period and the period's tick count fits the 32-bit
    register, the value stored in HRC is at most the value stored in LRC. *)
Theorem apply_keeps_duty_below_period (pwm : ocores_pwm_device) (hwpwm : Z)
  (st : pwm_state) (io : mmio) (base : Z) :
  ch_base pwm hwpwm = Some base ->
  0 < clk_rate pwm ->
  polarity st = PWM_POLARITY_INVERSED ->
  0 <= duty_cycle st <= period st ->
  round_to_nearest (period st * clk_rate pwm) NSEC_PER_SEC < 2 ^ 32 ->
  exists io',
    ocores_pwm_apply pwm hwpwm st io = Some (0, io') /\
    reg io' (REG_OCPWM_HRC base) <= reg io' (REG_OCPWM_LRC base).
Proof.
  intros Hbase Hrate Hpol Hdp Hfit.
  destruct (apply_run pwm hwpwm st io base Hbase Hpol)
    as (io' & Happly & _ & Hlrc & Hhrc & _).
  exists io'. split; [exact Happly|].
  assert (Hmono : round_to_nearest (duty_cycle st * clk_rate pwm) NSEC_PER_SEC
                  <= round_to_nearest (period st * clk_rate pwm) NSEC_PER_SEC).
  { apply round_to_nearest_mono; [reflexivity|].
    apply Z.mul_le_mono_nonneg_r; lia. }
  destruct (apply_ticks_fit (period st) (clk_rate pwm)) as [_ Hp]; try lia.
  destruct (apply_ticks_fit (duty_cycle st) (clk_rate pwm)) as [_ Hd]; lia.
Qed.

Lemma apply_keeps_duty_below_period_witness :
  exists io',
    ocores_pwm_apply (jh71x0_device 0x1000 24000000) 3
      (mk_pwm_state 1000000 999999 PWM_POLARITY_INVERSED true) idle_window
    = Some (0, io') /\
    reg io' (REG_OCPWM_HRC 0x1030) <= reg io' (REG_OCPWM_LRC 0x1030).
Proof.
  apply (apply_keeps_duty_below_period (jh71x0_device 0x1000 24000000) 3
           (mk_pwm_state 1000000 999999 PWM_POLARITY_INVERSED true)
           idle_window 0x1030).
  - reflexivity.
  - cbn. lia.
  - reflexivity.
  - cbn. lia.
  - vm_compute. reflexivity.
Defined.

(** X9.  [get_state] reports a duty cycle of at most the period whenever
    HRC is at most LRC, and both reported durations are non-negative and
    below 2^63, so they are representable in the 64-bit fields they are
    stored in. *)
Theorem get_state_keeps_duty_below_period (pwm : ocores_pwm_device)
  (hwpwm : Z) (io : mmio) (base : Z) :
  ch_base pwm hwpwm = Some base ->
  0 < clk_rate pwm < 2 ^ 32 ->
  exists st' io',
    ocores_pwm_get_state pwm hwpwm io = Some ((0, st'), io') /\
    0 <= period st' < 2 ^ 63 /\
    0 <= duty_cycle st' < 2 ^ 63 /\
    (reg io (REG_OCPWM_HRC base) <= reg io (REG_OCPWM_LRC base) ->
     duty_cycle st' <= period st').
Proof.
  intros Hbase Hrate.
  pose proof (reg_range io (REG_OCPWM_LRC base)) as Hl.
  pose proof (reg_range io (REG_OCPWM_HRC base)) as Hh.
  eexists. eexists.
  split; [apply (get_state_run pwm hwpwm io base Hbase)|].
  cbn [period duty_cycle].
  rewrite !get_state_ns_exact by assumption.
  assert (Hbound : forall t, 0 <= t < 2 ^ 32 ->
            0 <= round_to_nearest (t * NSEC_PER_SEC) (clk_rate pwm) < 2 ^ 63).
  { intros t Ht.
    pose proof (round_to_nearest_bounds (t * NSEC_PER_SEC) (clk_rate pwm)
                  ltac:(lia)) as Hb.
    split; [apply round_to_nearest_nonneg; unfold NSEC_PER_SEC; lia|].
    unfold NSEC_PER_SEC in *.
    set (q := round_to_nearest (t * 1000000000) (clk_rate pwm)) in *.
    destruct (Z.lt_ge_cases q (2 ^ 63)) as [|Hbig]; [assumption|exfalso].
    assert (clk_rate pwm * 2 ^ 63 <= clk_rate pwm * q)
      by (apply Z.mul_le_mono_nonneg_l; lia).
    lia. }
  split; [apply Hbound; assumption|].
  split; [apply Hbound; assumption|].
  intros Hle. apply round_to_nearest_mono; [lia|].
  apply Z.mul_le_mono_nonneg_r; [unfold NSEC_PER_SEC; lia | exact Hle].
Qed.

Lemma get_state_keeps_duty_below_period_witness :
  exists st' io',
    ocores_pwm_get_state (jh71x0_device 0x1000 24000000) 0 idle_window
    = Some ((0, st'), io') /\
    duty_cycle st' <= period st'.
Proof.
  destruct (get_state_keeps_duty_below_period
              (jh71x0_device 0x1000 24000000) 0 idle_window 0x1000)
    as (st' & io' & Hrun & _ & _ & Hle).
  - reflexivity.
  - cbn. lia.
  - exists st', io'. split; [exact Hrun|]. apply Hle. vm_compute. discriminate.
Defined.

(** ** Reading is repeatable *)

(** X10.  [get_state] only reads: a second call right after the first
    reports the same state, every register holds what it held, and no write
    is added to the trace. *)
Theorem get_state_is_repeatable (pwm : ocores_pwm_device) (hwpwm : Z)
  (io : mmio) (base : Z) :
  ch_base pwm hwpwm = Some base ->
  exists st io1 io2,
    ocores_pwm_get_state pwm hwpwm io = Some ((0, st), io1) /\
    ocores_pwm_get_state pwm hwpwm io1 = Some ((0, st), io2) /\
    (forall a, reg io2 a = reg io a) /\
    writes (trace io2) = writes (trace io).
Proof.
  intros Hbase.
  pose proof (get_state_run pwm hwpwm io base Hbase) as H1. cbv zeta in H1.
  match type of H1 with
  | _ = Some (_, ?w) =>
      pose proof (get_state_run pwm hwpwm w base Hbase) as H2
  end.
  cbv zeta in H2.
  eexists. eexists. eexists.
  split; [exact H1|].
  split; [exact H2|].
  split; [reflexivity|].
  cbn [trace]. unfold writes. rewrite !filter_app. cbn.
  rewrite !app_nil_r. reflexivity.
Qed.

Lemma get_state_is_repeatable_witness :
  exists st io1 io2,
    ocores_pwm_get_state (jh71x0_device 0x1000 24000000) 7
      (window_with_ctrl 0x9030 1) = Some ((0, st), io1) /\
    ocores_pwm_get_state (jh71x0_device 0x1000 24000000) 7 io1
    = Some ((0, st), io2) /\
    (forall a, reg io2 a = reg (window_with_ctrl 0x9030 1) a) /\
    writes (trace io2) = writes (trace (window_with_ctrl 0x9030 1)).
Proof.
  apply (get_state_is_repeatable (jh71x0_device 0x1000 24000000) 7
           (window_with_ctrl 0x9030 1) 0x9030).
  reflexivity.
Defined.

(** ** Durations shorter than a tick *)

(** X11.  [apply] does not reject a period too short for the clock: a
    period of less than half a tick is accepted and stored as 0 ticks, and
    within the register range LRC receives 0 only for such a period. *)
Theorem apply_rounds_short_period_to_zero (pwm : ocores_pwm_device)
  (hwpwm : Z) (st : pwm_state) (io : mmio) (base : Z) :
  ch_base pwm hwpwm = Some base ->
  0 < clk_rate pwm ->
  polarity st = PWM_POLARITY_INVERSED ->
  0 <= period st ->
  exists io',
    ocores_pwm_apply pwm hwpwm st io = Some (0, io') /\
    (2 * (period st * clk_rate pwm) < NSEC_PER_SEC ->
     reg io' (REG_OCPWM_LRC base) = 0) /\
    (round_to_nearest (period st * clk_rate pwm) NSEC_PER_SEC < 2 ^ 32 ->
     reg io' (REG_OCPWM_LRC base) = 0 ->
     2 * (period st * clk_rate pwm) < NSEC_PER_SEC).
Proof.
  intros Hbase Hrate Hpol Hper.
  destruct (apply_run pwm hwpwm st io base Hbase Hpol)
    as (io' & Happly & _ & Hlrc & _).
  exists io'. split; [exact Happly|]. rewrite Hlrc.
  pose proof (round_to_nearest_bounds (period st * clk_rate pwm) NSEC_PER_SEC
                ltac:(reflexivity)) as Hb.
  split.
  - intros Hshort.
    assert (Hz : round_to_nearest (period st * clk_rate pwm) NSEC_PER_SEC = 0).
    { apply round_to_nearest_unique; [reflexivity|].
      assert (0 <= period st * clk_rate pwm) by nia.
      unfold NSEC_PER_SEC in *. lia. }
    destruct (apply_ticks_fit (period st) (clk_rate pwm)) as [_ Hp]; lia.
  - intros Hfit Hzero.
    destruct (apply_ticks_fit (period st) (clk_rate pwm)) as [_ Hp];
      unfold NSEC_PER_SEC in *; lia.
Qed.

Lemma apply_rounds_short_period_to_zero_witness :
  exists io',
    ocores_pwm_apply (jh71x0_device 0x1000 24000000) 0
      (mk_pwm_state 20 10 PWM_POLARITY_INVERSED true) idle_window
    = Some (0, io') /\
    reg io' (REG_OCPWM_LRC 0x1000) = 0.
Proof.
  destruct (apply_rounds_short_period_to_zero
              (jh71x0_device 0x1000 24000000) 0
              (mk_pwm_state 20 10 PWM_POLARITY_INVERSED true)
              idle_window 0x1000)
    as (io' & Hrun & Hshort & _).
  - reflexivity.
  - cbn. lia.
  - reflexivity.
  - cbn. lia.
  - exists io'. split; [exact Hrun|]. apply Hshort. vm_compute. reflexivity.
Defined.

(** ** Variants without a resolver, variants without data *)



(** ** Probe *)

(** Every outcome of the probe, by the first platform call that fails. *)
Lemma probe_cases (pdev : platform_device) (io : mmio) :
  exists res,
    ocores_pwm_probe pdev io = Some (res, io) /\
    ((of_match_device ocores_pwm_of_match (dev_compatible pdev) = None /\
      res = mk_probe_result (- EINVAL) None None []) \/
     (exists id,
        of_match_device ocores_pwm_of_match (dev_compatible pdev) = Some id /\
        devm_kzalloc_ok pdev = false /\
        res = mk_probe_result (- ENOMEM) None None []) \/
     (exists id e,
        of_match_device ocores_pwm_of_match (dev_compatible pdev) = Some id /\
        devm_kzalloc_ok pdev = true /\
        devm_platform_ioremap_resource pdev = inl e /\
        res = mk_probe_result e None None
                [DevErr "Unable to map IO resources"]) \/
     (exists id regs e,
        of_match_device ocores_pwm_of_match (dev_compatible pdev) = Some id /\
        devm_kzalloc_ok pdev = true /\
        devm_platform_ioremap_resource pdev = inr regs /\
        devm_clk_get_enabled pdev = inl e /\
        res = mk_probe_result e None None
                [DevErr "Unable to get pwm's clock"]) \/
     (exists id regs rate,
        of_match_device ocores_pwm_of_match (dev_compatible pdev) = Some id /\
        devm_kzalloc_ok pdev = true /\
        devm_platform_ioremap_resource pdev = inr regs /\
        devm_clk_get_enabled pdev = inr rate /\
        u32 rate <= 0 /\
        res = mk_probe_result (- EINVAL) None None
                [ResetDeassert; DevWarn "Failed to get APB clock rate"]) \/
     (exists id regs rate,
        of_match_device ocores_pwm_of_match (dev_compatible pdev) = Some id /\
        devm_kzalloc_ok pdev = true /\
        devm_platform_ioremap_resource pdev = inr regs /\
        devm_clk_get_enabled pdev = inr rate /\
        0 < u32 rate /\
        devm_pwmchip_add pdev < 0 /\
        res = mk_probe_result (devm_pwmchip_add pdev) None None
                [ResetDeassert; DevErr "Cannot register PTC";
                 ClkDisableUnprepare; ResetAssert]) \/
     (exists id regs rate,
        of_match_device ocores_pwm_of_match (dev_compatible pdev) = Some id /\
        devm_kzalloc_ok pdev = true /\
        devm_platform_ioremap_resource pdev = inr regs /\
        devm_clk_get_enabled pdev = inr rate /\
        0 < u32 rate /\
        0 <= devm_pwmchip_add pdev /\
        res = mk_probe_result 0
                (Some (mk_ocores_pwm_device (mk_pwm_chip 8 3) (of_data id)
                         regs (u32 rate)))
                (Some (mk_ocores_pwm_device (mk_pwm_chip 8 3) (of_data id)
                         regs (u32 rate)))
                [ResetDeassert])).
Proof.
  unfold ocores_pwm_probe.
  destruct (of_match_device ocores_pwm_of_match (dev_compatible pdev))
    as [id|]; [|eexists; split; [reflexivity | left; split; reflexivity]].
  destruct (devm_kzalloc_ok pdev); cbn [negb];
    [|eexists; split; [reflexivity|];
      right; left; exists id; repeat split].
  destruct (devm_platform_ioremap_resource pdev) as [e|regs].
  { eexists; split; [reflexivity|].
    do 2 right; left; exists id, e; repeat split. }
  destruct (devm_clk_get_enabled pdev) as [e|rate].
  { eexists; split; [reflexivity|].
    do 3 right; left; exists id, regs, e; repeat split. }
  cbn [clk_rate].
  destruct (Z.leb_spec (u32 rate) 0).
  { eexists; split; [reflexivity|].
    do 4 right; left; exists id, regs, rate; repeat split; assumption. }
  destruct (Z.ltb_spec (devm_pwmchip_add pdev) 0).
  - eexists; split; [reflexivity|].
    do 5 right; left; exists id, regs, rate; repeat split; assumption.
  - eexists; split; [reflexivity|].
    do 6 right; exists id, regs, rate; repeat split; assumption.
Qed.

(** What a registered chip looks like. *)
Lemma probe_registered_inv (pdev : platform_device) (io io' : mmio)
  (res : probe_result) (pwm : ocores_pwm_device) :
  ocores_pwm_probe pdev io = Some (res, io') ->
  registered res = Some pwm ->
  exists id regs rate,
    of_match_device ocores_pwm_of_match (dev_compatible pdev) = Some id /\
    devm_platform_ioremap_resource pdev = inr regs /\
    devm_clk_get_enabled pdev = inr rate /\
    0 < u32 rate /\
    pwm = mk_ocores_pwm_device (mk_pwm_chip 8 3) (of_data id) regs (u32 rate) /\
    res = mk_probe_result 0 (Some pwm) (Some pwm) [ResetDeassert] /\
    io' = io.
Proof.
  intros Hrun Hreg.
  destruct (probe_cases pdev io) as (res0 & Hrun0 & Hcases).
  rewrite Hrun0 in Hrun. injection Hrun as -> ->.
  destruct Hcases as
    [ [_ ->]
    | [ (id & _ & _ & ->)
      | [ (id & e & _ & _ & _ & ->)
        | [ (id & regs0 & e & _ & _ & _ & _ & ->)
          | [ (id & regs0 & rate & _ & _ & _ & _ & _ & ->)
            | [ (id & regs0 & rate & _ & _ & _ & _ & _ & _ & ->)
              | (id & regs0 & rate & Hid & _ & Hmap & Hclk & Hpos & _ & ->)
      ]]]]]]; try discriminate Hreg.
  cbn in Hreg. injection Hreg as <-.
  exists id, regs0, rate. repeat split; assumption.
Qed.

(** X13.  On a platform whose error pointers carry negative error numbers,
    the probe always returns, makes no register access, and returns 0
    exactly when it registered the chip, a negative number otherwise; the
    driver data is set exactly when the chip is registered.  A registered
    chip has 8 channels, 3 specifier cells, the mapped register base, and a
    clock rate in (0, 2^32) that is the platform's rate modulo 2^32. *)
Theorem probe_outcome (pdev : platform_device) (io : mmio) :
  platform_device_wf pdev ->
  exists res,
    ocores_pwm_probe pdev io = Some (res, io) /\
    probe_ret res <= 0 /\
    (probe_ret res = 0 <-> registered res <> None) /\
    drvdata res = registered res /\
    (forall pwm,
       registered res = Some pwm ->
       npwm (chip pwm) = 8 /\
       of_pwm_n_cells (chip pwm) = 3 /\
       devm_platform_ioremap_resource pdev = inr (regs pwm) /\
       0 < clk_rate pwm < 2 ^ 32 /\
       exists rate,
         devm_clk_get_enabled pdev = inr rate /\ clk_rate pwm = u32 rate).
Proof.
  intros [Hmapwf Hclkwf].
  destruct (probe_cases pdev io) as (res & Hrun & Hcases).
  exists res. split; [exact Hrun|].
  destruct Hcases as
    [ [_ ->]
    | [ (id & _ & _ & ->)
      | [ (id & e & _ & _ & He & ->)
        | [ (id & regs0 & e & _ & _ & _ & He & ->)
          | [ (id & regs0 & rate & _ & _ & _ & _ & _ & ->)
            | [ (id & regs0 & rate & _ & _ & _ & _ & _ & Hadd & ->)
              | (id & regs0 & rate & Hid & _ & Hmap & Hclk & Hpos & _ & ->)
      ]]]]]]; cbn [probe_ret registered drvdata].
  1, 2, 5: repeat split; try discriminate; try congruence;
    unfold EINVAL, ENOMEM; lia.
  1: pose proof (Hmapwf e He) as [? ?].
  2: pose proof (Hclkwf e He) as [? ?].
  1, 2, 3: repeat split; try discriminate; try congruence; lia.
  split; [lia|]. split; [split; [discriminate | reflexivity]|].
  split; [reflexivity|].
  intros pwm Hpwm. injection Hpwm as <-. cbn.
  pose proof (u32_range rate).
  repeat split; try assumption; try lia.
  exists rate. split; [assumption | reflexivity].
Qed.

Lemma probe_outcome_witness :
  exists res,
    ocores_pwm_probe
      (mk_platform_device "starfive,jh71x0-pwm" true (inr 0x1000)
         (inr 24000000) 0) idle_window = Some (res, idle_window) /\
    probe_ret res = 0 /\
    registered res = Some (jh71x0_device 0x1000 24000000).
Proof.
  destruct (probe_outcome
              (mk_platform_device "starfive,jh71x0-pwm" true (inr 0x1000)
                 (inr 24000000) 0) idle_window)
    as (res & Hrun & _).
  - split; intros e He; discriminate He.
  - exists res. split; [exact Hrun|].
    assert (Hc : ocores_pwm_probe
                   (mk_platform_device "starfive,jh71x0-pwm" true (inr 0x1000)
                      (inr 24000000) 0) idle_window
                 = Some (mk_probe_result 0
                           (Some (jh71x0_device 0x1000 24000000))
                           (Some (jh71x0_device 0x1000 24000000))
                           [ResetDeassert], idle_window))
      by reflexivity.
    rewrite Hc in Hrun. injection Hrun as <-. split; reflexivity.
Defined.

(** X14.  A device whose compatible string is neither of the two table
    entries is refused: the probe returns [-EINVAL] before allocating,
    mapping or touching the clock and reset line, and registers nothing. *)
Theorem probe_refuses_unknown_compatible (pdev : platform_device)
  (io : mmio) :
  dev_compatible pdev <> "opencores,pwm-ocores"%string ->
  dev_compatible pdev <> "starfive,jh71x0-pwm"%string ->
  ocores_pwm_probe pdev io
  = Some (mk_probe_result (- EINVAL) None None [], io).
Proof.
  intros H1 H2. unfold ocores_pwm_probe, of_match_device, ocores_pwm_of_match.
  cbn [find compatible].
  rewrite (proj2 (String.eqb_neq _ _)) by congruence.
  rewrite (proj2 (String.eqb_neq _ _)) by congruence.
  reflexivity.
Qed.

Lemma probe_refuses_unknown_compatible_witness :
  ocores_pwm_probe
    (mk_platform_device "opencores,pwm" true (inr 0x1000) (inr 24000000) 0)
    idle_window
  = Some (mk_probe_result (- EINVAL) None None [], idle_window).
Proof.
  apply (probe_refuses_unknown_compatible
           (mk_platform_device "opencores,pwm" true (inr 0x1000)
              (inr 24000000) 0) idle_window); discriminate.
Defined.

(** X15.  When [devm_pwmchip_add] fails after everything before it
    succeeded, the probe returns its error number, registers nothing, and
    releases what it took: after deasserting the reset line it disables the
    clock and asserts the reset line again, which are the releases
    [ocores_pwm_remove] makes. *)
Theorem probe_unwinds_failed_registration (pdev : platform_device)
  (io : mmio) (id : of_device_id) (regs0 rate : Z) :
  of_match_device ocores_pwm_of_match (dev_compatible pdev) = Some id ->
  devm_kzalloc_ok pdev = true ->
  devm_platform_ioremap_resource pdev = inr regs0 ->
  devm_clk_get_enabled pdev = inr rate ->
  0 < u32 rate ->
  devm_pwmchip_add pdev < 0 ->
  exists res,
    ocores_pwm_probe pdev io = Some (res, io) /\
    probe_ret res = devm_pwmchip_add pdev /\
    registered res = None /\
    drvdata res = None /\
    (exists l1 l2 l3,
       actions res = l1 ++ ResetDeassert :: l2 ++ ClkDisableUnprepare :: l3
       /\ In ResetAssert l3) /\
    (forall pwm acts,
       ocores_pwm_remove pwm io = Some ((0, acts), io) ->
       forall a, In a acts -> In a (actions res)).
Proof.
  intros Hid Halloc Hmap Hclk Hpos Hadd.
  unfold ocores_pwm_probe. rewrite Hid, Halloc, Hmap, Hclk.
  cbn [negb clk_rate].
  rewrite (proj2 (Z.leb_gt _ _) Hpos), (proj2 (Z.ltb_lt _ _) Hadd).
  eexists. split; [reflexivity|]. cbn [probe_ret registered drvdata actions].
  repeat split.
  - exists [], [DevErr "Cannot register PTC"], [ResetAssert].
    split; [reflexivity | cbn; tauto].
  - intros pwm acts Hrem a Ha. unfold ocores_pwm_remove, ret in Hrem.
    injection Hrem as <-. cbn in Ha |- *. tauto.
Qed.

Lemma probe_unwinds_failed_registration_witness :
  exists res,
    ocores_pwm_probe
      (mk_platform_device "starfive,jh71x0-pwm" true (inr 0x1000)
         (inr 24000000) (- 16)) idle_window = Some (res, idle_window) /\
    probe_ret res = - 16 /\
    registered res = None.
Proof.
  destruct (probe_unwinds_failed_registration
              (mk_platform_device "starfive,jh71x0-pwm" true (inr 0x1000)
                 (inr 24000000) (- 16)) idle_window
              (mk_of_device_id "starfive,jh71x0-pwm" (Some jh71x0_pwm_data))
              0x1000 24000000)
    as (res & Hrun & Hret & Hreg & _); try reflexivity.
  exists res. repeat split; assumption.
Defined.

(** X16.  The table entry of the generic compatible string carries no
    variant data, so a chip the probe registers for it has a NULL [data]
    pointer: every [apply] and every [get_state] on it dereferences NULL
    before anything else, whatever the channel, the request (even one with
    an unsupported polarity) and the register contents. *)
Theorem generic_variant_has_no_data (pdev : platform_device) (io io' : mmio)
  (res : probe_result) (pwm : ocores_pwm_device) :
  dev_compatible pdev = "opencores,pwm-ocores"%string ->
  ocores_pwm_probe pdev io = Some (res, io') ->
  registered res = Some pwm ->
  data pwm = None /\
  (forall hwpwm st w, ocores_pwm_apply pwm hwpwm st w = None) /\
  (forall hwpwm w, ocores_pwm_get_state pwm hwpwm w = None).
Proof.
  intros Hcompat Hrun Hreg.
  destruct (probe_registered_inv pdev io io' res pwm Hrun Hreg)
    as (id & regs0 & rate & Hid & _ & _ & _ & -> & _).
  rewrite Hcompat in Hid.
  change (of_match_device ocores_pwm_of_match "opencores,pwm-ocores")
    with (Some (mk_of_device_id "opencores,pwm-ocores" None)) in Hid.
  injection Hid as <-.
  cbn [data of_data].
  split; [reflexivity|]. split; reflexivity.
Qed.

Lemma generic_variant_has_no_data_witness :
  ocores_pwm_apply
    (mk_ocores_pwm_device (mk_pwm_chip 8 3) None 0x1000 24000000) 0
    (mk_pwm_state 1000000 500000 PWM_POLARITY_NORMAL true) idle_window
  = None.
Proof.
  destruct (generic_variant_has_no_data
              (mk_platform_device "opencores,pwm-ocores" true (inr 0x1000)
                 (inr 24000000) 0)
              idle_window idle_window
              (mk_probe_result 0
                 (Some (mk_ocores_pwm_device (mk_pwm_chip 8 3) None 0x1000
                          24000000))
                 (Some (mk_ocores_pwm_device (mk_pwm_chip 8 3) None 0x1000
                          24000000))
                 [ResetDeassert])
              (mk_ocores_pwm_device (mk_pwm_chip 8 3) None 0x1000 24000000))
    as (_ & Happly & _);
    [reflexivity | reflexivity | reflexivity | apply Happly].
Defined.

(** X17.  A chip the probe registers for the StarFive compatible string
    carries the StarFive resolver and a clock rate in (0, 2^32): on it every
    [get_state] returns 0 and every [apply] returns, for every channel
    index, request and register contents. *)
Theorem starfive_chip_never_faults (pdev : platform_device) (io io' : mmio)
  (res : probe_result) (pwm : ocores_pwm_device) :
  dev_compatible pdev = "starfive,jh71x0-pwm"%string ->
  ocores_pwm_probe pdev io = Some (res, io') ->
  registered res = Some pwm ->
  data pwm = Some jh71x0_pwm_data /\
  0 < clk_rate pwm < 2 ^ 32 /\
  (forall hwpwm,
     ch_base pwm hwpwm
     = Some (starfive_jh71x0_get_ch_base (regs pwm) hwpwm)) /\
  (forall hwpwm st w, exists r w',
     ocores_pwm_apply pwm hwpwm st w = Some (r, w') /\
     (r = 0 \/ r = - EINVAL)) /\
  (forall hwpwm w, exists s w',
     ocores_pwm_get_state pwm hwpwm w = Some ((0, s), w')).
Proof.
  intros Hcompat Hrun Hreg.
  destruct (probe_registered_inv pdev io io' res pwm Hrun Hreg)
    as (id & regs0 & rate & Hid & _ & _ & Hpos & -> & _).
  rewrite Hcompat in Hid.
  change (of_match_device ocores_pwm_of_match "starfive,jh71x0-pwm")
    with (Some (mk_of_device_id "starfive,jh71x0-pwm"
                  (Some jh71x0_pwm_data))) in Hid.
  injection Hid as <-.
  cbn [data of_data clk_rate regs].
  pose proof (u32_range rate).
  set (pwm := mk_ocores_pwm_device _ _ _ _).
  assert (Hb : forall hwpwm,
            ch_base pwm hwpwm
            = Some (starfive_jh71x0_get_ch_base regs0 hwpwm))
    by reflexivity.
  split; [reflexivity|]. split; [lia|]. split; [exact Hb|]. split.
  - intros hwpwm st w. destruct (polarity st) eqn:Hpol.
    + exists (- EINVAL), w. split; [|right; reflexivity].
      apply (apply_reject pwm hwpwm st w _ (Hb hwpwm)). congruence.
    + destruct (apply_run pwm hwpwm st w _ (Hb hwpwm) Hpol)
        as (w' & Happly & _).
      exists 0, w'. split; [exact Happly | left; reflexivity].
  - intros hwpwm w. eexists. eexists.
    apply (get_state_run pwm hwpwm w _ (Hb hwpwm)).
Qed.

Lemma starfive_chip_never_faults_witness :
  data (jh71x0_device 0x1000 24000000) = Some jh71x0_pwm_data /\
  0 < clk_rate (jh71x0_device 0x1000 24000000) < 2 ^ 32.
Proof.
  destruct (starfive_chip_never_faults
              (mk_platform_device "starfive,jh71x0-pwm" true (inr 0x1000)
                 (inr 24000000) 0)
              idle_window idle_window
              (mk_probe_result 0 (Some (jh71x0_device 0x1000 24000000))
                 (Some (jh71x0_device 0x1000 24000000)) [ResetDeassert])
              (jh71x0_device 0x1000 24000000))
    as (Hdata & Hrate & _);
    [reflexivity | reflexivity | reflexivity | split; assumption].
Defined.

(** X18.  An error from mapping the registers or from getting the clock is
    returned unchanged, and an allocation failure is [-ENOMEM]; in all three
    cases nothing is registered and the reset line has not been touched. *)
Theorem probe_propagates_early_errors (pdev : platform_device) (io : mmio)
  (id : of_device_id) :
  of_match_device ocores_pwm_of_match (dev_compatible pdev) = Some id ->
  exists res,
    ocores_pwm_probe pdev io = Some (res, io) /\
    (devm_kzalloc_ok pdev = false ->
     probe_ret res = - ENOMEM /\ registered res = None /\
     actions res = []) /\
    (forall e,
       devm_kzalloc_ok pdev = true ->
       devm_platform_ioremap_resource pdev = inl e ->
       probe_ret res = e /\ registered res = None /\
       ~ In ResetDeassert (actions res) /\ ~ In ResetAssert (actions res)) /\
    (forall regs0 e,
       devm_kzalloc_ok pdev = true ->
       devm_platform_ioremap_resource pdev = inr regs0 ->
       devm_clk_get_enabled pdev = inl e ->
       probe_ret res = e /\ registered res = None /\
       ~ In ResetDeassert (actions res) /\ ~ In ResetAssert (actions res)).
Proof.
  intros Hid.
  destruct (probe_cases pdev io) as (res & Hrun & Hcases).
  exists res. split; [exact Hrun|].
  assert (Hnot : forall m a,
            a <> DevErr m -> ~ In a [DevErr m])
    by (intros m a Hne [H|[]]; congruence).
  destruct Hcases as
    [ [Hnone _]
    | [ (id1 & _ & Hk1 & ->)
      | [ (id1 & e1 & _ & Hk1 & Hm1 & ->)
        | [ (id1 & r1 & e1 & _ & Hk1 & Hm1 & Hc1 & ->)
          | [ (id1 & r1 & t1 & _ & Hk1 & Hm1 & Hc1 & _ & _)
            | [ (id1 & r1 & t1 & _ & Hk1 & Hm1 & Hc1 & _ & _ & _)
              | (id1 & r1 & t1 & _ & Hk1 & Hm1 & Hc1 & _ & _ & _)
      ]]]]]]; [congruence|..];
    cbn [probe_ret registered actions];
    (split; [intros Hk | split; [intros e Hk He | intros regs0 e Hk Hm He]]);
    try congruence.
  - repeat split.
  - assert (e = e1) by congruence. subst e.
    repeat split; apply Hnot; discriminate.
  - assert (e = e1) by congruence. subst e.
    repeat split; apply Hnot; discriminate.
Qed.

Lemma probe_propagates_early_errors_witness :
  exists res,
    ocores_pwm_probe
      (mk_platform_device "starfive,jh71x0-pwm" true (inr 0x1000)
         (inl (- 2)) 0) idle_window = Some (res, idle_window) /\
    probe_ret res = - 2 /\
    registered res = None.
Proof.
  destruct (probe_propagates_early_errors
              (mk_platform_device "starfive,jh71x0-pwm" true (inr 0x1000)
                 (inl (- 2)) 0) idle_window
              (mk_of_device_id "starfive,jh71x0-pwm" (Some jh71x0_pwm_data)))
    as (res & Hrun & _ & _ & Hclk).
  - reflexivity.
  - exists res. split; [exact Hrun|].
    destruct (Hclk 0x1000 (- 2)) as (Hret & Hreg & _);
      [reflexivity | reflexivity | reflexivity | split; assumption].
Defined.

(** ** Durations the clock can represent *)

(** X19.  A period that is a whole number of clock ticks and fits the 32-bit
    register round-trips exactly: [apply] stores [period * clk_rate / 1e9]
    ticks and [get_state] reports the requested period again. *)
Theorem representable_period_round_trips (pwm : ocores_pwm_device)
  (hwpwm : Z) (st : pwm_state) (io : mmio) (base : Z) :
  ch_base pwm hwpwm = Some base ->
  0 < clk_rate pwm < 2 ^ 32 ->
  polarity st = PWM_POLARITY_INVERSED ->
  0 <= period st ->
  (period st * clk_rate pwm) mod NSEC_PER_SEC = 0 ->
  period st * clk_rate pwm / NSEC_PER_SEC < 2 ^ 32 ->
  exists io' io'' st',
    ocores_pwm_apply pwm hwpwm st io = Some (0, io') /\
    reg io' (REG_OCPWM_LRC base) = period st * clk_rate pwm / NSEC_PER_SEC /\
    ocores_pwm_get_state pwm hwpwm io' = Some ((0, st'), io'') /\
    period st' = period st.
Proof.
  intros Hbase Hrate Hpol Hper Hdiv Hfit.
  set (k := period st * clk_rate pwm / NSEC_PER_SEC) in *.
  assert (Hk : period st * clk_rate pwm = NSEC_PER_SEC * k).
  { pose proof (Z.div_mod (period st * clk_rate pwm) NSEC_PER_SEC
                  ltac:(discriminate)) as H.
    rewrite Hdiv in H. fold k in H. lia. }
  assert (Hk0 : 0 <= k) by (apply Z.div_pos; [nia | reflexivity]).
  assert (Hticks : round_to_nearest (period st * clk_rate pwm) NSEC_PER_SEC = k).
  { apply round_to_nearest_unique; [reflexivity|].
    rewrite Hk. unfold NSEC_PER_SEC. lia. }
  destruct (apply_run pwm hwpwm st io base Hbase Hpol)
    as (io' & Happly & _ & Hlrc & _).
  destruct (apply_ticks_fit (period st) (clk_rate pwm)) as [_ Hp]; try lia.
  rewrite Hp, Hticks in Hlrc.
  exists io'. eexists. eexists.
  split; [exact Happly|]. split; [exact Hlrc|].
  split; [apply (get_state_run pwm hwpwm io' base Hbase)|].
  cbn [period]. rewrite Hlrc.
  rewrite get_state_ns_exact by lia.
  apply round_to_nearest_unique; [lia|].
  replace (k * NSEC_PER_SEC) with (period st * clk_rate pwm) by lia.
  lia.
Qed.

Lemma representable_period_round_trips_witness :
  exists io' io'' st',
    ocores_pwm_apply (jh71x0_device 0x1000 24000000) 0
      (mk_pwm_state 1000000 333333 PWM_POLARITY_INVERSED true) idle_window
    = Some (0, io') /\
    reg io' (REG_OCPWM_LRC 0x1000) = 24000 /\
    ocores_pwm_get_state (jh71x0_device 0x1000 24000000) 0 io'
    = Some ((0, st'), io'') /\
    period st' = 1000000.
Proof.
  apply (representable_period_round_trips (jh71x0_device 0x1000 24000000) 0
           (mk_pwm_state 1000000 333333 PWM_POLARITY_INVERSED true)
           idle_window 0x1000).
  - reflexivity.
  - cbn. lia.
  - reflexivity.
  - cbn. lia.
  - reflexivity.
  - vm_compute. reflexivity.
Defined.
